(** * Smart Assembly Pro: the generation proxy, its client and the UI shell

    A shallow embedding of the three pieces of the application that carry
    behaviour:
    - the serverless handler of [/api/gemini] (the Generation Proxy), which
      builds a prompt, calls the model provider and answers with JSON;
    - the browser-side client ([generateSection], [suggestTopics]);
    - the state cells and handlers of the [App] component.

    The program is dynamically typed at its boundaries ([req: any],
    [Promise<any>], [JSON.parse]), so values are embedded as an inductive
    type of JavaScript values with the language's own conversions
    (ToBoolean, ToString, property access, object spread).  Platform
    services whose code is not part of the repository ([JSON.parse],
    [JSON.stringify], the provider SDK, [Math.random], [fetch]) are
    Section variables; a reference JSON codec instantiates them wherever a
    statement is evaluated on concrete data. *)

From Stdlib Require Import ZArith Ascii String DecimalString.
From stdpp Require Import base option list strings gmap.

Set Warnings "-register-all".

Local Open Scope Z_scope.

(** ** JavaScript values and the conversions the program relies on *)

Module Js.

(** The values that cross the program's boundaries: whatever [JSON.parse]
    can produce, plus [undefined].  [JNum] carries an integral Number (the
    safe-integer range); fractional and non-finite numbers do not occur in
    any path modelled here.  Strings are sequences of code units.  An
    object is its list of own properties in insertion order. *)
Inductive JsVal : Type :=
| JUndefined
| JNull
| JBool (b : bool)
| JNum (n : Z)
| JStr (s : string)
| JArr (xs : list JsVal)
| JObj (props : list (string * JsVal)).

(** Thrown values.  Everything the modelled code can catch is an [Error]
    object: a name and a [message] property (a string for the built-in
    errors, possibly missing on a provider-specific error object). *)
Record Exn : Type := mkExn { exn_name : string; exn_message : JsVal }.

(** A computation that may throw. *)
Inductive Result (A : Type) : Type :=
| Ok (a : A)
| Throw (e : Exn).
Arguments Ok {A} a.
Arguments Throw {A} e.

Definition bind {A B} (r : Result A) (k : A -> Result B) : Result B :=
  match r with
  | Ok a => k a
  | Throw e => Throw e
  end.

Notation "'let*' x ':=' r 'in' k" := (bind r (fun x => k))
  (at level 10, x name, r at level 100, k at level 200).

(** [try { body } catch (e) { handler }] *)
Definition try_catch {A} (body : Result A) (handler : Exn -> A) : A :=
  match body with
  | Ok a => a
  | Throw e => handler e
  end.

Definition dquote : string := String "034"%char EmptyString.
Definition newline : string := String "010"%char EmptyString.

(** ToBoolean. *)
Definition truthy (v : JsVal) : bool :=
  match v with
  | JUndefined | JNull => false
  | JBool b => b
  | JNum n => negb (n =? 0)
  | JStr s => negb (String.eqb s EmptyString)
  | JArr _ | JObj _ => true
  end.

(** [a || b] *)
Definition or_else (a b : JsVal) : JsVal := if truthy a then a else b.

Definition Z_to_string (n : Z) : string := NilEmpty.string_of_int (Z.to_int n).
Definition nat_to_string (n : nat) : string := NilEmpty.string_of_uint (Nat.to_uint n).

Fixpoint join (sep : string) (parts : list string) : string :=
  match parts with
  | [] => EmptyString
  | [p] => p
  | p :: rest => p +:+ sep +:+ join sep rest
  end.

(** Strict equality with a string literal: [v === 'lit']. *)
Definition is_str (lit : string) (v : JsVal) : bool :=
  match v with
  | JStr s => String.eqb s lit
  | _ => false
  end.

(** Own-property lookup in a property list (first binding). *)
Fixpoint lookup_prop (k : string) (props : list (string * JsVal)) : option JsVal :=
  match props with
  | [] => None
  | (k', v) :: rest => if String.eqb k' k then Some v else lookup_prop k rest
  end.

(** The TypeError of a conversion to a primitive that finds no callable
    [toString] and no [valueOf] giving a primitive (V8 wording). *)
Definition cannot_convert : Exn :=
  mkExn "TypeError" (JStr "Cannot convert object to primitive value").

(** ToString, as applied by template literals, by [new Error(msg)] and by
    the platform interfaces that take a string.  A Number prints as its
    decimal numeral (the integers of [JNum], see [JsVal]).  An array joins
    the conversions of its elements with a comma, [null] and [undefined]
    elements printing as nothing.  An object goes through its [toString]
    method: the inherited one prints the class tag; an own property named
    [toString] hides it, and since no value of [JsVal] is callable the
    conversion then throws (the inherited [valueOf] returns the object
    itself, an own one is not callable either). *)
Fixpoint ToString (v : JsVal) : Result string :=
  match v with
  | JUndefined => Ok "undefined"
  | JNull => Ok "null"
  | JBool true => Ok "true"
  | JBool false => Ok "false"
  | JNum n => Ok (Z_to_string n)
  | JStr s => Ok s
  | JArr xs =>
      let* parts :=
        (fix elements (xs : list JsVal) : Result (list string) :=
           match xs with
           | [] => Ok []
           | x :: rest =>
               let* part := match x with
                            | JUndefined | JNull => Ok EmptyString
                            | _ => ToString x
                            end in
               let* parts := elements rest in
               Ok (part :: parts)
           end) xs in
      Ok (join "," parts)
  | JObj props =>
      match lookup_prop "toString" props with
      | Some _ => Throw cannot_convert
      | None => Ok "[object Object]"
      end
  end.

(** Whether a value can be converted to a string. *)
Definition converts (v : JsVal) : bool :=
  match ToString v with
  | Ok _ => true
  | Throw _ => false
  end.

(** [{ ...props, [k]: v }]: an existing key keeps its place, a new key is
    appended. *)
Fixpoint set_prop (k : string) (v : JsVal) (props : list (string * JsVal))
  : list (string * JsVal) :=
  match props with
  | [] => [(k, v)]
  | (k', v') :: rest =>
      if String.eqb k' k then (k, v) :: rest else (k', v') :: set_prop k v rest
  end.

(** Reading a named property of a value that is neither [null] nor
    [undefined].  The names read by this program are data field names; none
    of them is [length] or an index, so strings and arrays, like numbers
    and booleans, answer [undefined]. *)
Definition member (v : JsVal) (k : string) : JsVal :=
  match v with
  | JObj props => default JUndefined (lookup_prop k props)
  | _ => JUndefined
  end.

Definition nullish (v : JsVal) : bool :=
  match v with
  | JUndefined | JNull => true
  | _ => false
  end.

(** How an engine's message names a [null] or [undefined] value. *)
Definition nullish_word (v : JsVal) : string :=
  match v with
  | JNull => "null"
  | _ => "undefined"
  end.

(** The message engines attach to a property read on [null]/[undefined]
    (V8 wording). *)
Definition read_of_nullish (v : JsVal) (k : string) : Exn :=
  mkExn "TypeError"
        (JStr ("Cannot read properties of " +:+ nullish_word v +:+ " (reading '" +:+ k +:+ "')")).

(** [v.k] and [v[k]]: throws a TypeError on [null] and [undefined]. *)
Definition get_prop (v : JsVal) (k : string) : Result JsVal :=
  if nullish v then Throw (read_of_nullish v k) else Ok (member v k).

(** [v?.k] *)
Definition opt_chain (v : JsVal) (k : string) : JsVal :=
  if nullish v then JUndefined else member v k.

Fixpoint chars_from (i : nat) (s : string) : list (string * JsVal) :=
  match s with
  | EmptyString => []
  | String c rest =>
      (nat_to_string i, JStr (String c EmptyString)) :: chars_from (S i) rest
  end.

(** The own enumerable properties an object spread [{ ...v }] copies:
    nothing for [null], [undefined], numbers and booleans; the indexed
    elements of an array or of a string. *)
Definition own_props (v : JsVal) : list (string * JsVal) :=
  match v with
  | JObj props => props
  | JArr xs => imap (fun i x => (nat_to_string i, x)) xs
  | JStr s => chars_from 0 s
  | _ => []
  end.

(** [new Error(msg)] for a defined [msg]: the message is converted to a
    string, and the construction throws when that conversion does. *)
Definition new_Error (msg : JsVal) : Result Exn :=
  let* message := ToString msg in
  Ok (mkExn "Error" (JStr message)).

(** [String.prototype.includes]. *)
Fixpoint starts_with (needle hay : string) : bool :=
  match needle, hay with
  | EmptyString, _ => true
  | String a n', String b h' => Ascii.eqb a b && starts_with n' h'
  | String _ _, EmptyString => false
  end.

Fixpoint includes (needle hay : string) : bool :=
  starts_with needle hay ||
  match hay with
  | EmptyString => false
  | String _ h' => includes needle h'
  end.

(** The declarative reading of [includes]. *)
Definition contains (needle hay : string) : Prop :=
  exists pre post, hay = pre +:+ needle +:+ post.

End Js.
Export Js.

(** ** A reference JSON codec

    [JSON.parse] and [JSON.stringify] are platform functions; the program's
    definitions take them as parameters.  This codec follows the JSON
    grammar on the values of [JsVal] (literals, integers, strings with the
    short escapes and [\u00XX], arrays, objects) and is the instance at
    which statements are evaluated on concrete texts.  Texts outside that
    fragment (fractions, exponents, escapes above U+007F) are never fed to
    it. *)

Module RefJSON.

Definition hex_digit (n : nat) : string :=
  String.substring n 1 "0123456789abcdef".

(** QuoteJSONString, one code unit at a time. *)
Definition quote_char (c : ascii) : string :=
  let n := nat_of_ascii c in
  if Nat.eqb n 34 then "\" +:+ dquote
  else if Nat.eqb n 92 then "\\"
  else if Nat.eqb n 8 then "\b"
  else if Nat.eqb n 9 then "\t"
  else if Nat.eqb n 10 then "\n"
  else if Nat.eqb n 12 then "\f"
  else if Nat.eqb n 13 then "\r"
  else if Nat.ltb n 32 then "\u00" +:+ hex_digit (n / 16) +:+ hex_digit (n mod 16)
  else String c EmptyString.

Fixpoint quote_body (s : string) : string :=
  match s with
  | EmptyString => EmptyString
  | String c rest => quote_char c +:+ quote_body rest
  end.

Definition json_quote (s : string) : string := dquote +:+ quote_body s +:+ dquote.

(** SerializeJSONProperty.  [None] is the [undefined] result, which drops
    a property from an object and prints as [null] inside an array. *)
Fixpoint serialize (v : JsVal) : option string :=
  match v with
  | JUndefined => None
  | JNull => Some "null"
  | JBool true => Some "true"
  | JBool false => Some "false"
  | JNum n => Some (Z_to_string n)
  | JStr s => Some (json_quote s)
  | JArr xs =>
      Some ("[" +:+ join "," (List.map (fun x => default "null" (serialize x)) xs) +:+ "]")
  | JObj props =>
      Some ("{" +:+
            join "," (omap (fun kv => match serialize (snd kv) with
                                      | Some t => Some (json_quote (fst kv) +:+ ":" +:+ t)
                                      | None => None
                                      end) props) +:+
            "}")
  end.

(** [JSON.stringify(v)] as a template literal interpolates it. *)
Definition json_stringify (v : JsVal) : string := default "undefined" (serialize v).

Definition syntax_error : Exn := mkExn "SyntaxError" (JStr "Unexpected token in JSON").

Definition is_ws (c : ascii) : bool :=
  let n := nat_of_ascii c in
  Nat.eqb n 32 || Nat.eqb n 9 || Nat.eqb n 10 || Nat.eqb n 13.

Fixpoint skip_ws (s : string) : string :=
  match s with
  | String c rest => if is_ws c then skip_ws rest else s
  | EmptyString => s
  end.

Definition digit_val (c : ascii) : option Z :=
  let n := nat_of_ascii c in
  if Nat.leb 48 n && Nat.leb n 57 then Some (Z.of_nat (n - 48)) else None.

Fixpoint parse_digits (acc : Z) (s : string) : Z * string :=
  match s with
  | String c rest =>
      match digit_val c with
      | Some d => parse_digits (acc * 10 + d) rest
      | None => (acc, s)
      end
  | EmptyString => (acc, s)
  end.

(** [int = zero / ( digit1-9 *DIGIT )]: a leading zero stands alone. *)
Definition parse_nat (s : string) : option (Z * string) :=
  match s with
  | String c rest =>
      match digit_val c with
      | Some 0 => Some (0, rest)
      | Some d => Some (parse_digits d rest)
      | None => None
      end
  | EmptyString => None
  end.

Definition hex_val (c : ascii) : option nat :=
  let n := nat_of_ascii c in
  if Nat.leb 48 n && Nat.leb n 57 then Some (n - 48)%nat
  else if Nat.leb 97 n && Nat.leb n 102 then Some (n - 87)%nat
  else if Nat.leb 65 n && Nat.leb n 70 then Some (n - 55)%nat
  else None.

(** The code unit of [\uXXXX], for units below U+0080. *)
Definition parse_hex4 (s : string) : option (ascii * string) :=
  match s with
  | String a (String b (String c (String d rest))) =>
      match hex_val a, hex_val b, hex_val c, hex_val d with
      | Some 0%nat, Some 0%nat, Some h, Some l =>
          if Nat.ltb h 8 then Some (ascii_of_nat (16 * h + l), rest) else None
      | _, _, _, _ => None
      end
  | _ => None
  end.

Definition unescape (c : ascii) : option ascii :=
  let n := nat_of_ascii c in
  if Nat.eqb n 34 then Some c
  else if Nat.eqb n 92 then Some c
  else if Nat.eqb n 47 then Some c
  else if Nat.eqb n 98 then Some (ascii_of_nat 8)
  else if Nat.eqb n 102 then Some (ascii_of_nat 12)
  else if Nat.eqb n 110 then Some (ascii_of_nat 10)
  else if Nat.eqb n 114 then Some (ascii_of_nat 13)
  else if Nat.eqb n 116 then Some (ascii_of_nat 9)
  else None.

Definition cons_char (c : ascii) (r : option (string * string)) : option (string * string) :=
  match r with
  | Some (body, rest) => Some (String c body, rest)
  | None => None
  end.

(** The characters of a string literal after its opening quote, up to and
    including the closing quote. *)
Fixpoint parse_string (fuel : nat) (s : string) : option (string * string) :=
  match fuel, s with
  | S fuel', String c rest =>
      let n := nat_of_ascii c in
      if Nat.eqb n 34 then Some (EmptyString, rest)
      else if Nat.eqb n 92 then
        match rest with
        | String e rest' =>
            match unescape e with
            | Some ch => cons_char ch (parse_string fuel' rest')
            | None =>
                if Nat.eqb (nat_of_ascii e) 117 then
                  match parse_hex4 rest' with
                  | Some (ch, rest'') => cons_char ch (parse_string fuel' rest'')
                  | None => None
                  end
                else None
            end
        | EmptyString => None
        end
      else if Nat.ltb n 32 then None
      else cons_char c (parse_string fuel' rest)
  | _, _ => None
  end.

Definition drop_literal (lit : string) (v : JsVal) (s : string) : option (JsVal * string) :=
  if starts_with lit s
  then Some (v, String.substring (String.length lit) (String.length s - String.length lit) s)
  else None.

Fixpoint parse_value (fuel : nat) (s : string) {struct fuel} : option (JsVal * string) :=
  match fuel with
  | O => None
  | S fuel' =>
      match skip_ws s with
      | EmptyString => None
      | String c rest as s' =>
          let n := nat_of_ascii c in
          if Nat.eqb n 34 then
            match parse_string (String.length rest) rest with
            | Some (body, rest') => Some (JStr body, rest')
            | None => None
            end
          else if Nat.eqb n 91 then
            match skip_ws rest with
            | String "]" rest' => Some (JArr [], rest')
            | _ =>
                match parse_elements fuel' rest with
                | Some (xs, rest') => Some (JArr xs, rest')
                | None => None
                end
            end
          else if Nat.eqb n 123 then
            match skip_ws rest with
            | String "}" rest' => Some (JObj [], rest')
            | _ =>
                match parse_members fuel' [] rest with
                | Some (props, rest') => Some (JObj props, rest')
                | None => None
                end
            end
          else if Nat.eqb n 45 then
            match parse_nat rest with
            | Some (z, rest') => Some (JNum (- z), rest')
            | None => None
            end
          else if Nat.eqb n 110 then drop_literal "null" JNull s'
          else if Nat.eqb n 116 then drop_literal "true" (JBool true) s'
          else if Nat.eqb n 102 then drop_literal "false" (JBool false) s'
          else
            match parse_nat s' with
            | Some (z, rest') => Some (JNum z, rest')
            | None => None
            end
      end
  end
with parse_elements (fuel : nat) (s : string) {struct fuel} : option (list JsVal * string) :=
  match fuel with
  | O => None
  | S fuel' =>
      match parse_value fuel' s with
      | Some (v, rest) =>
          match skip_ws rest with
          | String "," rest' =>
              match parse_elements fuel' rest' with
              | Some (vs, rest'') => Some (v :: vs, rest'')
              | None => None
              end
          | String "]" rest' => Some ([v], rest')
          | _ => None
          end
      | None => None
      end
  end
with parse_members (fuel : nat) (acc : list (string * JsVal)) (s : string) {struct fuel}
  : option (list (string * JsVal) * string) :=
  match fuel with
  | O => None
  | S fuel' =>
      match skip_ws s with
      | String c rest =>
          if Nat.eqb (nat_of_ascii c) 34 then
            match parse_string (String.length rest) rest with
            | Some (key, rest1) =>
                match skip_ws rest1 with
                | String ":" rest2 =>
                    match parse_value fuel' rest2 with
                    | Some (v, rest3) =>
                        (* a repeated key keeps its place and takes the later value *)
                        let acc' := set_prop key v acc in
                        match skip_ws rest3 with
                        | String "," rest4 => parse_members fuel' acc' rest4
                        | String "}" rest4 => Some (acc', rest4)
                        | _ => None
                        end
                    | None => None
                    end
                | _ => None
                end
            | None => None
            end
          else None
      | EmptyString => None
      end
  end.

(** [JSON.parse(text)]: one value, optional white space around it, nothing
    else; a SyntaxError otherwise. *)
Definition json_parse (text : string) : Result JsVal :=
  match parse_value (2 * String.length text + 2) text with
  | Some (v, rest) =>
      match skip_ws rest with
      | EmptyString => Ok v
      | _ => Throw syntax_error
      end
  | None => Throw syntax_error
  end.

End RefJSON.

(** ** The Generation Proxy: the handler of [/api/gemini] *)

Module Proxy.

(** The response schemas handed to the provider ([Type.STRING],
    [Type.OBJECT], [Type.ARRAY]). *)
Inductive Schema : Type :=
| TString
| TStringEnum (values : list string)
| TObject (properties : list (string * Schema)) (required : list string)
| TArray (items : Schema).

Definition WORD_SCHEMA : Schema :=
  TObject [("word", TString); ("meaning", TString); ("antonym", TString);
           ("synonym", TString); ("example", TString); ("pronunciation", TString)]
          ["word"; "meaning"; "antonym"; "synonym"; "example"].

Definition THOUGHT_SCHEMA : Schema :=
  TObject [("quote", TString); ("author", TString); ("bio", TString)]
          ["quote"; "author"].

Definition NEWS_SCHEMA : Schema :=
  TArray (TObject [("title", TString); ("summary", TString);
                   ("category", TStringEnum ["International"; "National"; "Sports"])]
                  ["title"; "summary"; "category"]).

Definition SPECIAL_ITEM_SCHEMA : Schema :=
  TObject [("type", TString); ("title", TString); ("content", TString); ("answer", TString)]
          ["type"; "content"].

Definition CELEBRATION_SCHEMA : Schema :=
  TObject [("title", TString); ("description", TString)]
          ["title"; "description"].

(** The argument of [ai.models.generateContent]: the model, the single
    text part of [contents], and [config]. *)
Record GenerateContentParams : Type := mkParams {
  model : string;
  contents_text : string;
  responseMimeType : string;
  responseSchema : option Schema
}.

(** What the handler reads of the provider's response: [response.text],
    a string or [undefined]. *)
Record GenerateContentResponse : Type := mkGenResponse { text : option string }.

Record Request : Type := mkRequest { method : string; body : JsVal }.

(** [res.status(code).json(value)] *)
Record Response : Type := mkResponse { status : Z; json : JsVal }.

(** One run of the handler: the provider calls it made, and how it ended,
    with a response or with an exception escaping the function. *)
Record Run : Type := mkRun { calls : list GenerateContentParams; outcome : Result Response }.

Definition error_body (msg : JsVal) : JsVal := JObj [("error", msg)].

(** [response.text || fallback] *)
Definition text_or (t : option string) (fallback : string) : string :=
  match t with
  | Some s => if String.eqb s EmptyString then fallback else s
  | None => fallback
  end.

(** The end of a line of the prompt template and the indentation of the
    next one. *)
Definition br : string := newline +:+ "      ".

Definition LANGUAGE_RULE : string :=
  "CRITICAL LANGUAGE RULE: If Primary Language is " +:+ dquote +:+ "Hindi" +:+ dquote +:+
  ", you MUST generate ALL text content (titles, summaries, meanings, quotes, stories, etc.) in Hindi script (Devanagari). For the " +:+
  dquote +:+ "Word of the Day" +:+ dquote +:+
  ", provide a Hindi word with its Hindi meaning and usage.".

Definition REPETITION_GUARD : string :=
  "CRITICAL REPETITION GUARD: The user is requesting NEW content. DO NOT repeat, rephrase, or reuse any part of the following previous content: ".

Definition REPETITION_GUARD_END : string :=
  ". Your response MUST be 100% unique and different from this.".

Definition SAFETY_RULES : string :=
  "Safety Rules:" +:+ br +:+
  "- Student-safe content only." +:+ br +:+
  "- No political debate, violence, or adult topics." +:+ br +:+
  "- Positive and educational tone.".

(** The TypeError of [const { type, ... } = req.body] on a [null] or
    [undefined] body (V8 wording). *)
Definition destructure_error (v : JsVal) : Exn :=
  mkExn "TypeError"
        (JStr ("Cannot destructure property 'type' of 'req.body' as it is " +:+
               nullish_word v +:+ ".")).

Section Handler.

(** [JSON.parse], [JSON.stringify], the provider SDK call (resolving to a
    response or rejecting with an error) and the interpolated
    [Math.random().toString(36).substring(7)]. *)
Variable JSON_parse : string -> Result JsVal.
Variable JSON_stringify : JsVal -> string.
Variable generateContent : GenerateContentParams -> Result GenerateContentResponse.
Variable nonce : string.

Definition suggestTopics_prompt (date language : JsVal) : Result string :=
  let langText := if is_str "Hindi" language
                  then "in Hindi script (Devanagari)" else "in English" in
  let* date_text := ToString date in
  Ok ("Suggest exactly 5 interesting and diverse topics for a school assembly special segment based on the date " +:+
      date_text +:+
      ". These could be related to historical events, environmental days, science, or moral values relevant to this time of year. Return the result " +:+
      langText +:+ " as a simple JSON array of 5 strings.").

(** The [switch (section)]: the schema it leaves in [schema], and the task
    instruction it leaves in [sectionPrompt], or the exception thrown while
    building that instruction (the [special_item] case assigns the schema
    first and then interpolates values of [options]).  A value matching no
    [case] leaves both variables at their initial values. *)
Definition section_dispatch (section options : JsVal) : option Schema * Result string :=
  if is_str "word" section then
    (Some WORD_SCHEMA,
     Ok "Generate an advanced but student-friendly English word with its meaning, antonym (opposite), synonym, and an example sentence.")
  else if is_str "thought" section then
    (Some THOUGHT_SCHEMA,
     Ok "Generate a short motivational quote from a famous personality. Include the author's name and a very brief 1-line bio.")
  else if is_str "news" section then
    (Some NEWS_SCHEMA,
     Ok "Generate 9 news items: 3 International, 3 National (India), and 3 Sports. Each should have a title, a 2-line summary, and a category label.")
  else if is_str "special_item" section then
    (Some SPECIAL_ITEM_SCHEMA,
     let* topicText :=
       if truthy (opt_chain options "customTopic")
       then let* topic := ToString (member options "customTopic") in
            Ok ("on the topic: " +:+ dquote +:+ topic +:+ dquote)
       else Ok EmptyString in
     let lengthText :=
       if is_str "Long" (opt_chain options "contentLength")
       then "detailed and long (about 250 words)"
       else "concise and short (about 100 words)" in
     let* type_text := ToString (or_else (opt_chain options "specialType") (JStr "Speech")) in
     Ok ("Generate a special assembly segment of type " +:+ dquote +:+ type_text +:+ dquote +:+
         " " +:+ topicText +:+ ". The content should be " +:+ lengthText +:+
         ". If it's a quiz, include the answer."))
  else if is_str "celebration" section then
    (Some CELEBRATION_SCHEMA,
     Ok "Tell me what is celebrated or special about this specific date (festivals, international days, etc.). Provide a title and a simple description.")
  else (None, Ok EmptyString).

Definition avoidRepetitionPrompt (options : JsVal) : string :=
  if truthy (opt_chain options "previousContent")
  then newline +:+ newline +:+ REPETITION_GUARD +:+
       JSON_stringify (member options "previousContent") +:+ REPETITION_GUARD_END
  else EmptyString.

(** The prompt template of [generateSection]: the four interpolated fields
    of the body are converted in the order of the template. *)
Definition section_prompt (date difficulty language section : JsVal)
           (sectionPrompt avoidRepetition : string) : Result string :=
  let* date_text := ToString date in
  let* difficulty_text := ToString difficulty in
  let* language_text := ToString language in
  let* section_text := ToString section in
  Ok ("Generate school assembly content for the date: " +:+ date_text +:+ "." +:+ br +:+
      "Target Audience Difficulty Level: " +:+ difficulty_text +:+ "." +:+ br +:+
      "Primary Language: " +:+ language_text +:+ "." +:+ br +:+
      br +:+
      LANGUAGE_RULE +:+ br +:+
      br +:+
      "Section: " +:+ section_text +:+ "." +:+ br +:+
      "Task: " +:+ sectionPrompt +:+ avoidRepetition +:+ br +:+
      br +:+
      "Randomness Factor: " +:+ nonce +:+ br +:+
      br +:+
      SAFETY_RULES +:+ br +:+
      br +:+
      "Return the response in the specified JSON format.").

(** The prompt the handler builds for a [generateSection] body: the
    [switch], the repetition guard, the template. *)
Definition generateSection_prompt (date difficulty language section options : JsVal)
  : Result string :=
  let* sectionPrompt := snd (section_dispatch section options) in
  section_prompt date difficulty language section sectionPrompt
                 (avoidRepetitionPrompt options).

(** The [catch] clause. *)
Definition on_error (error : Exn) : Response :=
  mkResponse 500 (error_body (or_else (exn_message error) (JStr "Internal Server Error"))).

(** The provider call of either mode followed by
    [res.status(200).json(JSON.parse(response.text || fallback))], inside
    the [try]. *)
Definition call_and_reply (params : GenerateContentParams) (fallback : string) : Response :=
  try_catch
    (let* response := generateContent params in
     let* parsed := JSON_parse (text_or (text response) fallback) in
     Ok (mkResponse 200 parsed))
    on_error.

(** The handler.  In either mode the prompt is built inside the [try],
    before the provider call: an exception thrown while building it goes to
    the [catch] clause and no call is made. *)
Definition handler (req : Request) : Run :=
  if negb (String.eqb (method req) "POST") then
    mkRun [] (Ok (mkResponse 405 (error_body (JStr "Method not allowed"))))
  else if nullish (body req) then
    (* the destructuring stands before the [try] *)
    mkRun [] (Throw (destructure_error (body req)))
  else
    let type := member (body req) "type" in
    let section := member (body req) "section" in
    let date := member (body req) "date" in
    let difficulty := member (body req) "difficulty" in
    let language := member (body req) "language" in
    let options := member (body req) "options" in
    if is_str "suggestTopics" type then
      match suggestTopics_prompt date language with
      | Ok prompt =>
          let params := mkParams "gemini-3-flash-preview" prompt "application/json"
                                 (Some (TArray TString)) in
          mkRun [params] (Ok (call_and_reply params "[]"))
      | Throw error => mkRun [] (Ok (on_error error))
      end
    else if is_str "generateSection" type then
      match generateSection_prompt date difficulty language section options with
      | Ok prompt =>
          let params := mkParams "gemini-3-flash-preview" prompt "application/json"
                                 (fst (section_dispatch section options)) in
          mkRun [params] (Ok (call_and_reply params "{}"))
      | Throw error => mkRun [] (Ok (on_error error))
      end
    else
      mkRun [] (Ok (mkResponse 400 (error_body (JStr "Invalid request type")))).

End Handler.

End Proxy.

(** ** The Generation Client: [generateSection] and [suggestTopics] *)

Module Client.

(** The argument of [fetch]. *)
Record FetchCall : Type := mkFetch {
  url : string;
  fetch_method : string;
  content_type : string;
  fetch_body : string
}.

(** What [await fetch(...)] settles to: a rejection (the transport
    failed), or a response with its [ok] flag and the text of its body. *)
Inductive FetchOutcome : Type :=
| FetchRejected (e : Exn)
| FetchResponse (ok : bool) (body_text : string).

Section Client.

Variable JSON_parse : string -> Result JsVal.
Variable JSON_stringify : JsVal -> string.

(** [response.json()]: the body text through the JSON parser; the promise
    rejects when the text is not JSON. *)
Definition response_json (body_text : string) : Result JsVal := JSON_parse body_text.

Definition generateSection_call (section date difficulty language options : JsVal)
  : FetchCall :=
  mkFetch "/api/gemini" "POST" "application/json"
          (JSON_stringify (JObj [("type", JStr "generateSection");
                                 ("section", section);
                                 ("date", date);
                                 ("difficulty", difficulty);
                                 ("language", language);
                                 ("options", options)])).

(** [generateSection] from the point where [fetch] has settled. *)
Definition generateSection_settle (o : FetchOutcome) : Result JsVal :=
  match o with
  | FetchRejected e => Throw e
  | FetchResponse ok body_text =>
      if negb ok then
        let* error := response_json body_text in
        let* reported := get_prop error "error" in
        let* failure := new_Error (or_else reported (JStr "Failed to generate content")) in
        Throw failure
      else response_json body_text
  end.

Definition generateSection (fetch : FetchCall -> FetchOutcome)
           (section date difficulty language options : JsVal) : Result JsVal :=
  generateSection_settle
    (fetch (generateSection_call section date difficulty language options)).

Definition suggestTopics_call (date language : JsVal) : FetchCall :=
  mkFetch "/api/gemini" "POST" "application/json"
          (JSON_stringify (JObj [("type", JStr "suggestTopics");
                                 ("date", date);
                                 ("language", language)])).

Definition suggestTopics_settle (o : FetchOutcome) : Result JsVal :=
  match o with
  | FetchRejected e => Throw e
  | FetchResponse ok body_text =>
      if negb ok then
        let* error := response_json body_text in
        let* reported := get_prop error "error" in
        let* failure := new_Error (or_else reported (JStr "Failed to suggest topics")) in
        Throw failure
      else response_json body_text
  end.

Definition suggestTopics (fetch : FetchCall -> FetchOutcome) (date language : JsVal)
  : Result JsVal :=
  suggestTopics_settle (fetch (suggestTopics_call date language)).

End Client.

End Client.

(** ** The UI shell: the state cells and handlers of [App] *)

Module App.

Import Client.

(** The [section] parameter of [handleGenerateSection]. *)
Inductive SectionName : Type := word | thought | news | special_item | celebration.

Definition section_key (s : SectionName) : string :=
  match s with
  | word => "word"
  | thought => "thought"
  | news => "news"
  | special_item => "special_item"
  | celebration => "celebration"
  end.

Inductive SpecialItemType : Type := Speech | Fact | Quiz | ImportantDay | MoralStory.

Definition special_type_name (t : SpecialItemType) : string :=
  match t with
  | Speech => "Speech"
  | Fact => "Fact"
  | Quiz => "Quiz"
  | ImportantDay => "Important Day"
  | MoralStory => "Moral Story"
  end.

Inductive ContentLength : Type := Short | Long.

Definition content_length_name (l : ContentLength) : string :=
  match l with
  | Short => "Short"
  | Long => "Long"
  end.

(** The state cells of the component that the modelled code reads or
    writes.  [data] and [settings] are typed [AssemblyData] and
    [AppSettings] in the source but hold whatever [JSON.parse] returned at
    start-up, hence [JsVal].  [loadingSections] is a
    [Record<string, boolean>]. *)
Record AppState : Type := mkState {
  data : JsVal;
  loadingSections : gmap string bool;
  error : option string;
  selectedDate : string;
  isOnline : bool;
  greeting : string;
  customTopic : string;
  specialType : SpecialItemType;
  contentLength : ContentLength;
  settings : JsVal
}.

Definition setData (f : JsVal -> JsVal) (st : AppState) : AppState :=
  mkState (f (data st)) (loadingSections st) (error st) (selectedDate st) (isOnline st)
          (greeting st) (customTopic st) (specialType st) (contentLength st) (settings st).

Definition setLoadingSections (f : gmap string bool -> gmap string bool) (st : AppState)
  : AppState :=
  mkState (data st) (f (loadingSections st)) (error st) (selectedDate st) (isOnline st)
          (greeting st) (customTopic st) (specialType st) (contentLength st) (settings st).

Definition setError (e : option string) (st : AppState) : AppState :=
  mkState (data st) (loadingSections st) e (selectedDate st) (isOnline st)
          (greeting st) (customTopic st) (specialType st) (contentLength st) (settings st).

Definition setGreeting (g : string) (st : AppState) : AppState :=
  mkState (data st) (loadingSections st) (error st) (selectedDate st) (isOnline st)
          g (customTopic st) (specialType st) (contentLength st) (settings st).

(** What the handlers do besides updating state. *)
Inductive Effect : Type :=
| Fetch (call : FetchCall)
| Confetti (particleCount spread : Z) (colors : list JsVal)
| ConsoleError (e : Exn).

Definition DEFAULT_SETTINGS : JsVal :=
  JObj [("difficulty", JStr "Middle");
        ("language", JStr "English");
        ("themeColor", JStr "#6366f1");
        ("isDarkMode", JBool true)].

(** [{ timestamp: new Date().toISOString() }] *)
Definition empty_data (now : string) : JsVal := JObj [("timestamp", JStr now)].

(** The body of [updateGreeting], given [new Date().getHours()]. *)
Definition updateGreeting (hour : Z) (st : AppState) : AppState :=
  if hour <? 12 then setGreeting "Good Morning" st
  else if hour <? 17 then setGreeting "Good Afternoon" st
  else setGreeting "Good Evening" st.

Section Shell.

Variable JSON_parse : string -> Result JsVal.
Variable JSON_stringify : JsVal -> string.

(** The lazy initialisers of the two persisted cells.  [localStorage] is a
    map from keys to texts; [getItem] answers [null] (here [None]) for a
    key with no entry. *)
Definition init_settings (localStorage : gmap string string) : Result JsVal :=
  match localStorage !! "assembly_settings_v2" with
  | Some saved => if truthy (JStr saved) then JSON_parse saved else Ok DEFAULT_SETTINGS
  | None => Ok DEFAULT_SETTINGS
  end.

Definition init_data (now : string) (localStorage : gmap string string) : Result JsVal :=
  match localStorage !! "assembly_data_v2" with
  | Some saved => if truthy (JStr saved) then JSON_parse saved else Ok (empty_data now)
  | None => Ok (empty_data now)
  end.

(** How far the synchronous part of [handleGenerateSection] got. *)
Inductive Started : Type :=
| Returned
| Awaiting (call : FetchCall).

(** The [finally] clause. *)
Definition finally_clear (section : SectionName) (st : AppState) : AppState :=
  setLoadingSections (fun prev => <[section_key section := false]> prev) st.

(** The [catch] clause. *)
Definition on_failure (section : SectionName) (err : Exn) (st : AppState)
  : AppState * list Effect :=
  (setError (Some ("Failed to generate " +:+ section_key section +:+ ". Please try again.")) st,
   [ConsoleError err]).

(** The arguments of the [generateSection] call, evaluated left to right
    from the values the handler closed over. *)
Definition call_arguments (section : SectionName) (st : AppState) : Result FetchCall :=
  let* difficulty := get_prop (settings st) "difficulty" in
  let* language := get_prop (settings st) "language" in
  let* previousContent := get_prop (data st) (section_key section) in
  Ok (generateSection_call JSON_stringify
        (JStr (section_key section)) (JStr (selectedDate st)) difficulty language
        (JObj [("specialType", JStr (special_type_name (specialType st)));
               ("customTopic", JStr (customTopic st));
               ("contentLength", JStr (content_length_name (contentLength st)));
               ("previousContent", previousContent)])).

(** [handleGenerateSection] up to its [await]. *)
Definition handleGenerateSection_start (section : SectionName) (st : AppState)
  : AppState * list Effect * Started :=
  if negb (isOnline st) then
    (setError (Some "No internet connection.") st, [], Returned)
  else
    let st1 := setLoadingSections (fun prev => <[section_key section := true]> prev) st in
    let st2 := setError None st1 in
    match call_arguments section st with
    | Ok call => (st2, [Fetch call], Awaiting call)
    | Throw err =>
        let '(st3, fx) := on_failure section err st2 in
        (finally_clear section st3, fx, Returned)
    end.

(** [handleGenerateSection] from the point where the network call has
    settled.  [captured] is the state the handler closed over when it was
    called; [st] is the state at the time of resumption, which the
    functional updates [setData(prev => ...)] and
    [setLoadingSections(prev => ...)] read; [now] is
    [new Date().toISOString()]. *)
Definition handleGenerateSection_resume (section : SectionName) (captured : AppState)
           (o : FetchOutcome) (now : string) (st : AppState) : AppState * list Effect :=
  match generateSection_settle JSON_parse o with
  | Ok result =>
      let st1 := setData (fun prev =>
                            JObj (set_prop "timestamp" (JStr now)
                                    (set_prop (section_key section) result (own_props prev))))
                         st in
      match get_prop (settings captured) "themeColor" with
      | Ok themeColor =>
          (finally_clear section st1, [Confetti 40 50 [themeColor; JStr "#ffffff"]])
      | Throw err =>
          let '(st2, fx) := on_failure section err st1 in
          (finally_clear section st2, fx)
      end
  | Throw err =>
      let '(st1, fx) := on_failure section err st in
      (finally_clear section st1, fx)
  end.

(** One uninterrupted run of [handleGenerateSection]: nothing else touches
    the state while the network call is in flight. *)
Definition handleGenerateSection (fetch : FetchCall -> FetchOutcome) (now : string)
           (section : SectionName) (st : AppState) : AppState * list Effect :=
  match handleGenerateSection_start section st with
  | (st1, fx, Returned) => (st1, fx)
  | (st1, fx, Awaiting call) =>
      let '(st2, fx') := handleGenerateSection_resume section st (fetch call) now st1 in
      (st2, fx ++ fx')
  end.

(** What the [try] block's [generateSection] call came to in such a run:
    the value it resolved to, or the exception the block threw (while
    evaluating the arguments, or out of the call). *)
Definition attempt (fetch : FetchCall -> FetchOutcome) (section : SectionName)
           (st : AppState) : Result JsVal :=
  let* call := call_arguments section st in
  generateSection_settle JSON_parse (fetch call).

End Shell.

End App.

(** ** Sample data

    A concrete provider and concrete states at which the statements below
    are evaluated. *)

Module Samples.

Import Proxy Client App.

(** A provider whose response carries no text. *)
Definition silent_provider (p : GenerateContentParams) : Result GenerateContentResponse :=
  Ok (mkGenResponse None).

(** A provider that answers every call with the same text. *)
Definition constant_provider (t : string) (p : GenerateContentParams)
  : Result GenerateContentResponse :=
  Ok (mkGenResponse (Some t)).

(** A provider whose call rejects. *)
Definition failing_provider (p : GenerateContentParams) : Result GenerateContentResponse :=
  Throw (mkExn "ApiError" (JStr "API key not valid")).

Definition sample_nonce : string := "k3x9f".

(** A session that already holds a thought, online, with default
    settings. *)
Definition online_state : AppState :=
  mkState (JObj [("thought", JObj [("quote", JStr "Stay curious"); ("author", JStr "Anon")]);
                 ("timestamp", JStr "2025-01-26T03:00:00.000Z")])
          ∅ None "2025-01-26" true "Good Morning" "" Speech Short DEFAULT_SETTINGS.

(** The same session, offline, with a [word] request still in flight. *)
Definition offline_state : AppState :=
  mkState (data online_state) {["word" := true]} None "2025-01-26" false
          "Good Morning" "" Speech Short DEFAULT_SETTINGS.

(** A network that answers every call with a 200 carrying [text]. *)
Definition ok_network (text : string) (c : FetchCall) : FetchOutcome :=
  FetchResponse true text.

(** A network that answers every call with a 500 carrying [text]. *)
Definition failed_network (text : string) (c : FetchCall) : FetchOutcome :=
  FetchResponse false text.

(** The error body the Proxy sends after a provider failure. *)
Definition reported_failure : string :=
  RefJSON.json_stringify (error_body (JStr "API key not valid")).

(** A storage whose two entries were cut short. *)
Definition truncated_storage : gmap string string :=
  {["assembly_settings_v2" := "{difficulty:"; "assembly_data_v2" := "{timestamp:"]}.

End Samples.

(** ** The UI shell, continued: suggestions, speech, export, settings

    The remaining state cells and handlers of [App], over the cells of
    [App.AppState]. *)

Module Session.

Import Client App.

(** A [SpeechSynthesisVoice], as far as the code reads it. *)
Record Voice : Type := mkVoice { voice_name : string; voice_lang : string }.

(** A [SpeechSynthesisUtterance] as handed to [speechSynthesis.speak]. *)
Record Utterance : Type := mkUtterance {
  utterance_text : string;
  utterance_lang : string;
  utterance_voice : option Voice
}.

(** What these handlers do besides updating state. *)
Inductive Action : Type :=
| Network (call : FetchCall)
| LogError (label : string) (e : Exn)
| SpeechCancel
| SpeechSpeak (u : Utterance)
| Download (filename mime content : string).

(** [App.AppState] with the cells of speech and topic suggestion.
    [suggestedTopicsList] is typed [string[]] and holds whatever
    [suggestTopics] resolved to. *)
Record ShellState : Type := mkShell {
  app : AppState;
  isSpeaking : bool;
  isSuggesting : bool;
  suggestedTopicsList : JsVal
}.

Definition setIsSpeaking (b : bool) (st : ShellState) : ShellState :=
  mkShell (app st) b (isSuggesting st) (suggestedTopicsList st).

Definition setIsSuggesting (b : bool) (st : ShellState) : ShellState :=
  mkShell (app st) (isSpeaking st) b (suggestedTopicsList st).

Definition setSuggestedTopicsList (l : JsVal) (st : ShellState) : ShellState :=
  mkShell (app st) (isSpeaking st) (isSuggesting st) l.

(** [voices.find(v => v.lang.includes(tag))] *)
Definition pick_voice (tag : string) (voices : list Voice) : option Voice :=
  List.find (fun v => includes tag (voice_lang v)) voices.

(** [handleSpeak(text)], given what [speechSynthesis.getVoices()]
    returns. *)
Definition handleSpeak (voices : list Voice) (text : string) (st : ShellState)
  : Result (ShellState * list Action) :=
  if isSpeaking st then
    Ok (setIsSpeaking false st, [SpeechCancel])
  else
    let* language := get_prop (settings (app st)) "language" in
    let utterance :=
      if is_str "Hindi" language
      then mkUtterance text "hi-IN" (pick_voice "hi" voices)
      else mkUtterance text "en-US" (pick_voice "en" voices) in
    Ok (setIsSpeaking true st, [SpeechSpeak utterance]).

(** [utterance.onend] *)
Definition utterance_onend (st : ShellState) : ShellState := setIsSpeaking false st.

(** [downloadAsText()].  The single part handed to the [Blob] constructor
    is converted to a string there; when that conversion throws, so does
    the constructor, before any file exists. *)
Definition downloadAsText (st : AppState) : Result (list Action) :=
  let* item := get_prop (data st) "special_item" in
  if negb (truthy item) then Ok []
  else
    let* content := ToString (member item "content") in
    Ok [Download ("Special_Segment_" +:+ selectedDate st +:+ ".txt") "text/plain" content].

Section Suggestions.

Variable JSON_parse : string -> Result JsVal.
Variable JSON_stringify : JsVal -> string.

(** The arguments of the [suggestTopics] call, evaluated inside the
    [try]. *)
Definition suggestion_arguments (st : AppState) : Result FetchCall :=
  let* language := get_prop (settings st) "language" in
  Ok (suggestTopics_call JSON_stringify (JStr (selectedDate st)) language).

Definition suggestions_failed (err : Exn) : Action :=
  LogError "Failed to fetch suggestions" err.

(** [fetchSuggestions] up to its [await]. *)
Definition fetchSuggestions_start (st : ShellState) : ShellState * list Action * Started :=
  if isOnline (app st) then
    let st1 := setIsSuggesting true st in
    match suggestion_arguments (app st) with
    | Ok call => (st1, [Network call], Awaiting call)
    | Throw err => (setIsSuggesting false st1, [suggestions_failed err], Returned)
    end
  else (st, [], Returned).

(** [fetchSuggestions] from the point where the network call has settled,
    in the state of that moment. *)
Definition fetchSuggestions_resume (o : FetchOutcome) (st : ShellState)
  : ShellState * list Action :=
  match suggestTopics_settle JSON_parse o with
  | Ok suggestions => (setIsSuggesting false (setSuggestedTopicsList suggestions st), [])
  | Throw err => (setIsSuggesting false st, [suggestions_failed err])
  end.

(** One uninterrupted run of the effect. *)
Definition fetchSuggestions (fetch : FetchCall -> FetchOutcome) (st : ShellState)
  : ShellState * list Action :=
  match fetchSuggestions_start st with
  | (st1, fx, Returned) => (st1, fx)
  | (st1, fx, Awaiting call) =>
      let '(st2, fx') := fetchSuggestions_resume (fetch call) st1 in
      (st2, fx ++ fx')
  end.

End Suggestions.

(** [{ ...settings, [k]: v }], the argument of [setSettings] in the
    difficulty, language and theme controls. *)
Definition update_setting (k : string) (v : JsVal) (settings : JsVal) : JsVal :=
  JObj (set_prop k v (own_props settings)).

(** [{ ...settings, isDarkMode: !settings.isDarkMode }] *)
Definition toggleDarkMode (settings : JsVal) : Result JsVal :=
  let* dark := get_prop settings "isDarkMode" in
  Ok (update_setting "isDarkMode" (JBool (negb (truthy dark))) settings).

(** What the two persistence effects act on: the storage, the class list
    of [document.body], and the [setProperty] calls made on the root
    element's style, in order, each with the property name and the value
    string the method received. *)
Record Page : Type := mkPage {
  page_storage : gmap string string;
  page_body_classes : gset string;
  page_root_style : list (string * string)
}.

(** The conversion of the [value] argument of [setProperty], declared
    [[LegacyNullToEmptyString] CSSOMString]: [null] becomes the empty
    string, any other value goes through ToString. *)
Definition css_value (v : JsVal) : Result string :=
  match v with
  | JNull => Ok EmptyString
  | _ => ToString v
  end.

Section Persistence.

Variable JSON_stringify : JsVal -> string.

(** The effect on [settings]: the page it leaves, and the exception it
    ends with, if any.  The entry is written first; the read of
    [settings.isDarkMode] throws on [null] or [undefined] settings; the
    class list is updated next; the conversion of [settings.themeColor]
    to the string [setProperty] takes comes last, and when it throws the
    call is not made. *)
Definition settings_effect (settings : JsVal) (page : Page) : Page * option Exn :=
  let stored := <["assembly_settings_v2" := JSON_stringify settings]> (page_storage page) in
  match get_prop settings "isDarkMode" with
  | Throw err => (mkPage stored (page_body_classes page) (page_root_style page), Some err)
  | Ok dark =>
      let classes := if truthy dark
                     then page_body_classes page ∖ {["light-mode"]}
                     else page_body_classes page ∪ {["light-mode"]} in
      match css_value (member settings "themeColor") with
      | Ok colour =>
          (mkPage stored classes (page_root_style page ++ [("--theme-color", colour)]), None)
      | Throw err => (mkPage stored classes (page_root_style page), Some err)
      end
  end.

(** The effect on [data]. *)
Definition data_effect (data : JsVal) (page : Page) : Page :=
  mkPage (<["assembly_data_v2" := JSON_stringify data]> (page_storage page))
         (page_body_classes page) (page_root_style page).

End Persistence.

(** The options object of the [generateSection] call. *)
Definition request_options (st : AppState) (previousContent : JsVal) : JsVal :=
  JObj [("specialType", JStr (special_type_name (specialType st)));
        ("customTopic", JStr (customTopic st));
        ("contentLength", JStr (content_length_name (contentLength st)));
        ("previousContent", previousContent)].

(** The three columns of the news card. *)
Definition NEWS_CATEGORIES : list string := ["International"; "National"; "Sports"].

(** Calling [filter] on a value that has none (V8 wording). *)
Definition filter_is_not_a_function : Exn :=
  mkExn "TypeError" (JStr "data.news?.filter is not a function").

(** [items.filter(n => n.category === cat)] *)
Fixpoint filter_by_category (cat : string) (items : list JsVal) : Result (list JsVal) :=
  match items with
  | [] => Ok []
  | n :: rest =>
      let* category := get_prop n "category" in
      let* kept := filter_by_category cat rest in
      Ok (if is_str cat category then n :: kept else kept)
  end.

(** The columns, for a truthy [data.news]: per category, in the order of
    [NEWS_CATEGORIES], the [title] and [summary] handed to the two text
    nodes of each item. *)
Fixpoint news_columns_of (cats : list string) (items : list JsVal)
  : Result (list (string * list (JsVal * JsVal))) :=
  match cats with
  | [] => Ok []
  | cat :: more =>
      let* kept := filter_by_category cat items in
      let* others := news_columns_of more items in
      Ok ((cat, List.map (fun item => (member item "title", member item "summary")) kept)
            :: others)
  end.

(** The child of the news card: the placeholder ([None]) when [data.news]
    is falsy, the columns otherwise. *)
Definition news_card_body (data : JsVal)
  : Result (option (list (string * list (JsVal * JsVal)))) :=
  let* news := get_prop data "news" in
  if truthy news then
    match news with
    | JArr items =>
        let* columns := news_columns_of NEWS_CATEGORIES items in
        Ok (Some columns)
    | _ => Throw filter_is_not_a_function
    end
  else Ok None.

End Session.

(** ** The Presentation Card *)

Module Card.

Import App.

(** The props of [GlassCard] that decide what it shows: the title, whether
    an icon and each action were supplied, and the loading flag
    ([boolean | undefined]). *)
Record Props : Type := mkProps {
  title : option string;
  icon : bool;
  onRegenerate : bool;
  onSpeak : bool;
  isLoading : option bool
}.

Inductive Body : Type := Skeleton | Children.

(** What the card shows: the heading and the icon if any; each action
    control, absent ([None]) or present with its [disabled] attribute;
    whether the refresh icon spins; the skeleton or the children. *)
Record View : Type := mkView {
  heading : option string;
  icon_shown : bool;
  speak_control : option bool;
  regenerate_control : option bool;
  spinning : bool;
  shown : Body
}.

Definition flag_set (f : option bool) : bool := default false f.

Definition GlassCard (p : Props) : View :=
  mkView (match title p with
          | Some t => if String.eqb t EmptyString then None else Some t
          | None => None
          end)
         (icon p)
         (if onSpeak p then Some (flag_set (isLoading p)) else None)
         (if onRegenerate p then Some (flag_set (isLoading p)) else None)
         (onRegenerate p && flag_set (isLoading p))
         (if flag_set (isLoading p) then Skeleton else Children).

Definition card_title (s : SectionName) : string :=
  match s with
  | word => "Word of the Day"
  | thought => "Thought of the Day"
  | celebration => "On This Day"
  | news => "Daily News Bulletin"
  | special_item => "Special Assembly Segment"
  end.

(** The attributes [App] gives the card of a section: the title, an
    icon, both actions, and [loadingSections[section]] as loading flag. *)
Definition card_props (s : SectionName) (st : AppState) : Props :=
  mkProps (Some (card_title s)) true true true (loadingSections st !! section_key s).

(** A place of a card's content that holds a value of the data:
    [{v}], or [{v && <el>{v}</el>}]. *)
Inductive Slot : Type :=
| Always (v : JsVal)
| WhenTruthy (v : JsVal).

(** The children [App] builds for a section's card: the placeholder, the
    slots of the section's record in document order, or the columns of
    the news. *)
Inductive Content : Type :=
| Placeholder
| Fields (slots : list Slot)
| Columns (columns : list (string * list (JsVal * JsVal))).

(** [v[0]] *)
Definition first_element (v : JsVal) : Result JsVal :=
  match v with
  | JUndefined | JNull => Throw (read_of_nullish v "0")
  | JStr (String c _) => Ok (JStr (String c EmptyString))
  | JArr (x :: _) => Ok x
  | JObj props => Ok (default JUndefined (lookup_prop "0" props))
  | _ => Ok JUndefined
  end.

(** The children of a record's card, [data.x ? (...) : (...)]: the
    placeholder for a falsy [data.x], the slots of its fields otherwise. *)
Definition record_children (data : JsVal) (key : string)
           (fields : JsVal -> Result (list Slot)) : Result Content :=
  let* item := get_prop data key in
  if truthy item
  then let* slots := fields item in Ok (Fields slots)
  else Ok Placeholder.

(** The children expression of a section's card.  It is evaluated where
    [App] builds the card, whatever the loading flag.  The reads of the
    fields of a truthy [data.x] cannot throw; the index into
    [data.thought.author] and the calls on [data.news] can.  (The children
    also read [settings.themeColor] for their colours; [App] has read that
    property before, see [Render.App_render].) *)
Definition card_children (s : SectionName) (data : JsVal) : Result Content :=
  match s with
  | word =>
      record_children data "word" (fun item =>
        Ok [Always (member item "word"); WhenTruthy (member item "pronunciation");
            Always (member item "meaning"); Always (member item "synonym");
            Always (member item "antonym"); Always (member item "example")])
  | thought =>
      record_children data "thought" (fun item =>
        let* initial := first_element (member item "author") in
        Ok [Always (member item "quote"); Always initial;
            Always (member item "author"); WhenTruthy (member item "bio")])
  | celebration =>
      record_children data "celebration" (fun item =>
        Ok [Always (member item "title"); Always (member item "description")])
  | news =>
      let* body := Session.news_card_body data in
      Ok (match body with
          | Some columns => Columns columns
          | None => Placeholder
          end)
  | special_item =>
      record_children data "special_item" (fun item =>
        Ok [Always (member item "type"); WhenTruthy (member item "title");
            Always (member item "content"); WhenTruthy (member item "answer")])
  end.

(** [disabled] of the generate button of the segment configuration. *)
Definition generate_button_disabled (st : AppState) : bool :=
  flag_set (loadingSections st !! "special_item") || negb (isOnline st).

End Card.

(** ** What [App] returns

    The element tree of one render, as far as the statements below observe
    it, and the exceptions the evaluation of the [return] expression can
    throw, in the order of the expression.  What React does afterwards with
    the values placed in the tree is outside this development. *)

Module Render.

Import App Session Card.

(** Calling [map] on a value that has none (V8 wording). *)
Definition map_is_not_a_function : Exn :=
  mkExn "TypeError" (JStr "suggestedTopicsList.map is not a function").

(** The chips of the suggested topics: the five placeholders while a
    refresh is in flight ([None]), the elements of the list otherwise. *)
Definition suggestion_chips (st : ShellState) : Result (option (list JsVal)) :=
  if isSuggesting st then Ok None
  else
    match suggestedTopicsList st with
    | JArr topics => Ok (Some topics)
    | JUndefined | JNull => Throw (read_of_nullish (suggestedTopicsList st) "map")
    | _ => Throw map_is_not_a_function
    end.

(** The footer's [data.timestamp ? new Date(data.timestamp)
    .toLocaleTimeString() : 'Never']: whether a time is shown.  The [Date]
    constructor converts its argument to a primitive, which throws for the
    values ToString throws for; the text of the time depends on the locale
    and is not modelled. *)
Definition last_sync (data : JsVal) : Result bool :=
  let* timestamp := get_prop data "timestamp" in
  if truthy timestamp
  then let* primitive := ToString timestamp in Ok true
  else Ok false.

Record Screen : Type := mkScreen {
  banner : option string;
  cards : SectionName -> View * Content;
  chips : option (list JsVal);
  generate_disabled : bool;
  synced : bool
}.

(** The [return] expression of [App].  Its root element interpolates
    [settings.themeColor] in a template literal; the later reads of
    [settings] therefore cannot throw.  Then come, in the main area, the
    banner, the cards of word, thought, celebration and news with their
    children, the configuration card with the chips and the generate
    button, the card of the special segment, and the footer.  An exception
    anywhere leaves no element tree at all. *)
Definition App_render (st : ShellState) : Result Screen :=
  let a := app st in
  let* themeColor := get_prop (settings a) "themeColor" in
  let* selection := ToString themeColor in
  let* of_word := card_children word (data a) in
  let* of_thought := card_children thought (data a) in
  let* of_celebration := card_children celebration (data a) in
  let* of_news := card_children news (data a) in
  let* topics := suggestion_chips st in
  let* of_special_item := card_children special_item (data a) in
  let* synced := last_sync (data a) in
  Ok (mkScreen
        (match error a with
         | Some message => if String.eqb message EmptyString then None else Some message
         | None => None
         end)
        (fun s => (GlassCard (card_props s a),
                   match s with
                   | word => of_word
                   | thought => of_thought
                   | celebration => of_celebration
                   | news => of_news
                   | special_item => of_special_item
                   end))
        topics
        (generate_button_disabled a)
        synced).

End Render.

(** ** The Domain Types *)

Module Types.

Import App.

(** An interface as its fields, each with whether it is required. *)
Definition WordOfTheDay : list (string * bool) :=
  [("word", true); ("meaning", true); ("antonym", true); ("synonym", true);
   ("example", true); ("pronunciation", false)].

Definition ThoughtOfTheDay : list (string * bool) :=
  [("quote", true); ("author", true); ("bio", false)].

Definition NewsItem : list (string * bool) :=
  [("title", true); ("summary", true); ("category", true)].

Definition NewsItem_category : list string := ["International"; "National"; "Sports"].

Definition SpecialItem : list (string * bool) :=
  [("type", true); ("content", true); ("title", false); ("answer", false)].

Definition Celebration : list (string * bool) :=
  [("title", true); ("description", true)].

(** The schema of a property of an object schema. *)
Fixpoint lookup_prop_schema (k : string) (properties : list (string * Proxy.Schema))
  : option Proxy.Schema :=
  match properties with
  | [] => None
  | (k', s) :: rest => if String.eqb k' k then Some s else lookup_prop_schema k rest
  end.

(** The record type of a section's content (of one element, for the news
    array). *)
Definition record_type (s : SectionName) : list (string * bool) :=
  match s with
  | word => WordOfTheDay
  | thought => ThoughtOfTheDay
  | news => NewsItem
  | special_item => SpecialItem
  | celebration => Celebration
  end.

End Types.

(** ** Between Proxy and Client *)

Module Wire.

Import Proxy Client.

(** What [fetch] shows the client of an answer sent with
    [res.status(code).json(value)]: [ok] for a status from 200 to 299, and
    the JSON text of the value as body. *)
Definition delivered (JSON_stringify : JsVal -> string) (r : Response) : FetchOutcome :=
  FetchResponse ((200 <=? status r) && (status r <=? 299)) (JSON_stringify (json r)).

End Wire.

(** ** More sample data *)

Module MoreSamples.

Import App Session Samples.

(** A page with an unrelated class on its body and an older data entry. *)
Definition sample_page : Page :=
  mkPage {["assembly_data_v2" := "{}"]} {["custom-scrollbar"]} [].

(** The voices of a browser with one Hindi voice between two English
    ones. *)
Definition sample_voices : list Voice :=
  [mkVoice "Samantha" "en-US"; mkVoice "Lekha" "hi-IN"; mkVoice "Daniel" "en-GB"].

(** The sample session with Hindi chosen, nothing being spoken and no
    suggestions yet. *)
Definition hindi_shell : ShellState :=
  mkShell (mkState (data online_state) ∅ None "2025-01-26" true "Good Morning" "" Speech Short
                   (update_setting "language" (JStr "Hindi") DEFAULT_SETTINGS))
          false false (JArr []).

Definition online_shell : ShellState := mkShell online_state false false (JArr []).

End MoreSamples.

(** * Properties *)

Import RefJSON Proxy Client App Samples.

(** ** Strings *)

Section StringFacts.

Lemma append_nil_l (a : string) : EmptyString +:+ a = a.
Proof. reflexivity. Qed.

Lemma append_cons (x : ascii) (a b : string) : String x a +:+ b = String x (a +:+ b).
Proof. reflexivity. Qed.

Lemma append_assoc (a b c : string) : (a +:+ b) +:+ c = a +:+ (b +:+ c).
Proof.
  induction a as [|x a IH]; [reflexivity |].
  rewrite !append_cons. now rewrite IH.
Qed.

Lemma append_empty_r (a : string) : a +:+ EmptyString = a.
Proof.
  induction a as [|x a IH]; [reflexivity |].
  rewrite append_cons. now rewrite IH.
Qed.

Lemma contains_head (n post : string) : contains n (n +:+ post).
Proof. exists EmptyString, post. reflexivity. Qed.

Lemma contains_self (n : string) : contains n n.
Proof. exists EmptyString, EmptyString. now rewrite append_nil_l, append_empty_r. Qed.

Lemma contains_append_r (n a b : string) : contains n b -> contains n (a +:+ b).
Proof.
  intros (pre & post & ->). exists (a +:+ pre), post. now rewrite append_assoc.
Qed.

Lemma contains_head3 (a b c post : string) :
  contains (a +:+ b +:+ c) (a +:+ b +:+ c +:+ post).
Proof. exists EmptyString, post. now rewrite append_nil_l, !append_assoc. Qed.

Lemma starts_with_spec (n h : string) :
  starts_with n h = true <-> exists post, h = n +:+ post.
Proof.
  revert h. induction n as [|a n IH]; intros h; simpl.
  - split; [intros _; now exists h | reflexivity].
  - destruct h as [|b h].
    + split; [discriminate | intros (post & Hp); discriminate].
    + rewrite andb_true_iff, Ascii.eqb_eq, IH. split.
      * intros (-> & post & ->). now exists post.
      * intros (post & Hp). rewrite append_cons in Hp. injection Hp as -> ->.
        split; [reflexivity | now exists post].
Qed.

Lemma includes_head (n post : string) : includes n (n +:+ post) = true.
Proof.
  assert (Hs : starts_with n (n +:+ post) = true)
    by (apply starts_with_spec; now exists post).
  destruct (n +:+ post); simpl; now rewrite Hs.
Qed.

Lemma includes_spec (n h : string) : includes n h = true <-> contains n h.
Proof.
  split.
  - induction h as [|c h IH]; simpl; rewrite orb_true_iff.
    + intros [Hs | Hf]; [| discriminate].
      apply starts_with_spec in Hs as (post & ->). apply contains_head.
    + intros [Hs | Hr].
      * apply starts_with_spec in Hs as (post & ->). apply contains_head.
      * destruct (IH Hr) as (pre & post & ->). now exists (String c pre), post.
  - intros (pre & post & ->). induction pre as [|c pre IH].
    + rewrite append_nil_l. apply includes_head.
    + rewrite append_cons. simpl. rewrite IH. apply orb_true_r.
Qed.

Lemma not_includes_not_contains (n h : string) : includes n h = false -> ~ contains n h.
Proof. intros Hf Hc. apply includes_spec in Hc. congruence. Qed.

End StringFacts.

(** Finds a literal piece of a right-nested concatenation. *)
Ltac find_piece :=
  repeat first [ apply contains_head | apply contains_self | apply contains_append_r ].

(** ** Property lists *)

Section PropertyLists.

Lemma lookup_set_prop_eq (k : string) (v : JsVal) (props : list (string * JsVal)) :
  lookup_prop k (set_prop k v props) = Some v.
Proof.
  induction props as [|[k' v'] props IH]; simpl.
  - now rewrite String.eqb_refl.
  - destruct (String.eqb k' k) eqn:E; simpl.
    + now rewrite String.eqb_refl.
    + now rewrite E.
Qed.

Lemma lookup_set_prop_ne (k k' : string) (v : JsVal) (props : list (string * JsVal)) :
  k <> k' -> lookup_prop k' (set_prop k v props) = lookup_prop k' props.
Proof.
  intros Hne. induction props as [|[k0 v0] props IH]; simpl.
  - destruct (String.eqb k k') eqn:E; [apply String.eqb_eq in E; contradiction | reflexivity].
  - destruct (String.eqb k0 k) eqn:E; simpl.
    + apply String.eqb_eq in E as ->.
      destruct (String.eqb k k') eqn:E'; [apply String.eqb_eq in E'; contradiction | reflexivity].
    + now rewrite IH.
Qed.

Lemma section_key_not_timestamp (s : SectionName) : section_key s <> "timestamp".
Proof. destruct s; discriminate. Qed.

Lemma is_str_true (lit : string) (v : JsVal) : is_str lit v = true <-> v = JStr lit.
Proof.
  destruct v; simpl; try (split; [discriminate | intros [=]]).
  rewrite String.eqb_eq. split; [now intros -> | now intros [= ->]].
Qed.

End PropertyLists.

(** ** The reference codec on concrete texts *)

Section CodecExamples.

Example parse_fallbacks :
  json_parse "[]" = Ok (JArr []) /\ json_parse "{}" = Ok (JObj []).
Proof. split; reflexivity. Qed.

Example parse_rejects_truncated_text :
  json_parse "{difficulty:" = Throw syntax_error /\
  json_parse EmptyString = Throw syntax_error /\
  json_parse "[1, 2" = Throw syntax_error.
Proof. repeat split; reflexivity. Qed.

Example parse_nested :
  json_parse " [ {}, [true, null, -12], 7 ] " =
  Ok (JArr [JObj []; JArr [JBool true; JNull; JNum (-12)]; JNum 7]).
Proof. reflexivity. Qed.

(** Serializing drops [undefined] properties, prints [undefined] array
    elements as [null] and escapes quotes and line ends; parsing reads the
    text back. *)
Example stringify_then_parse :
  let value := JObj [("word", JStr ("a" +:+ dquote +:+ "b" +:+ newline));
                     ("pronunciation", JUndefined);
                     ("tags", JArr [JNum 1; JUndefined; JBool false])] in
  json_parse (json_stringify value) =
  Ok (JObj [("word", JStr ("a" +:+ dquote +:+ "b" +:+ newline));
            ("tags", JArr [JNum 1; JNull; JBool false])]).
Proof. reflexivity. Qed.

(** A repeated key keeps its first place and its last value. *)
Example parse_repeated_key :
  json_parse (json_stringify (JObj [("a", JNum 1); ("b", JNum 2)]) ) =
    Ok (JObj [("a", JNum 1); ("b", JNum 2)]) /\
  set_prop "a" (JNum 3) [("a", JNum 1); ("b", JNum 2)] = [("a", JNum 3); ("b", JNum 2)].
Proof. split; reflexivity. Qed.

End CodecExamples.

(** ** Conversions to a string *)

Section Conversions.

Lemma bind_throws {A B : Type} (r : Result A) (k : A -> Result B) (e : Exn) :
  bind r k = Throw e -> r = Throw e \/ exists a, r = Ok a /\ k a = Throw e.
Proof.
  destruct r as [a | e0]; simpl; intros H; [right; eauto | left; now injection H as ->].
Qed.

(** Induction on a value, with the property at hand for the elements of an
    array. *)
Lemma JsVal_elements_ind (P : JsVal -> Prop) :
  P JUndefined -> P JNull -> (forall b, P (JBool b)) -> (forall n, P (JNum n)) ->
  (forall s, P (JStr s)) ->
  (forall xs, Forall P xs -> P (JArr xs)) ->
  (forall props, P (JObj props)) ->
  forall v, P v.
Proof.
  intros Hu Hn Hb Hz Hs Ha Ho.
  refine (fix IH (v : JsVal) : P v :=
            match v with
            | JUndefined => Hu
            | JNull => Hn
            | JBool b => Hb b
            | JNum n => Hz n
            | JStr s => Hs s
            | JArr xs =>
                Ha xs ((fix all (xs : list JsVal) : Forall P xs :=
                          match xs with
                          | [] => @List.Forall_nil JsVal P
                          | x :: rest => @List.Forall_cons JsVal P x rest (IH x) (all rest)
                          end) xs)
            | JObj props => Ho props
            end).
Qed.

(** A conversion throws nothing but the TypeError of an object that
    cannot be converted. *)
Lemma ToString_throws (v : JsVal) (e : Exn) : ToString v = Throw e -> e = cannot_convert.
Proof.
  revert e. induction v as [| | [|] | n | s | xs IH | props] using JsVal_elements_ind;
    intros e; simpl; try discriminate.
  - intros H. apply bind_throws in H as [H | (parts & _ & H)]; [| discriminate H].
    revert e H. induction IH as [|x rest Hx _ IHrest]; intros e; simpl; [discriminate |].
    intros H. apply bind_throws in H as [H | (part & _ & H)].
    + destruct x; try discriminate H; exact (Hx _ H).
    + apply bind_throws in H as [H | (parts & _ & H)]; [exact (IHrest _ H) | discriminate H].
  - destruct (lookup_prop "toString" props); [now intros [= <-] | discriminate].
Qed.

Lemma converts_true (v : JsVal) : converts v = true <-> exists s, ToString v = Ok s.
Proof.
  unfold converts. destruct (ToString v) as [s | e]; split; eauto; try discriminate.
  intros (s & H). discriminate H.
Qed.

Lemma converts_false (v : JsVal) : converts v = false <-> ToString v = Throw cannot_convert.
Proof.
  unfold converts. destruct (ToString v) as [s | e] eqn:H; split; try discriminate.
  - intros _. now rewrite (ToString_throws v e H).
  - reflexivity.
Qed.

(** An object with an own property named [toString] cannot be converted,
    whatever the property holds. *)
Lemma own_toString_does_not_convert (props : list (string * JsVal)) (v : JsVal) :
  lookup_prop "toString" props = Some v -> ToString (JObj props) = Throw cannot_convert.
Proof. intros H. simpl. now rewrite H. Qed.

End Conversions.

(** Traces an exception of nested conversions back to the conversion that
    threw it. *)
Ltac conversion_throws H :=
  first [ exact (ToString_throws _ _ H)
        | discriminate H
        | apply bind_throws in H as [H | (? & _ & H)]; conversion_throws H ].

(** ** The prompt of [generateSection] *)

Section PromptProperties.

Variable JSON_parse : string -> Result JsVal.
Variable JSON_stringify : JsVal -> string.
Variable generateContent : GenerateContentParams -> Result GenerateContentResponse.
Variable nonce : string.

Lemma opt_chain_member (v : JsVal) (k : string) : opt_chain v k = member v k.
Proof. now destruct v. Qed.

(** The template is filled exactly when its four fields convert. *)
Lemma section_prompt_built (date difficulty language section : JsVal) (task avoid : string) :
  (exists text, section_prompt nonce date difficulty language section task avoid = Ok text) <->
  converts date = true /\ converts difficulty = true /\
  converts language = true /\ converts section = true.
Proof.
  unfold section_prompt, converts.
  destruct (ToString date), (ToString difficulty), (ToString language), (ToString section);
    simpl; split;
    first [ intros _; now repeat split
          | intros (text & H); discriminate H
          | intros (? & ? & ? & ?); discriminate
          | intros _; eauto ].
Qed.

Lemma section_prompt_throws (date difficulty language section : JsVal) (task avoid : string)
      (e : Exn) :
  section_prompt nonce date difficulty language section task avoid = Throw e ->
  e = cannot_convert.
Proof. unfold section_prompt. intros H. conversion_throws H. Qed.

Lemma section_dispatch_throws (section options : JsVal) (e : Exn) :
  snd (section_dispatch section options) = Throw e -> e = cannot_convert.
Proof.
  unfold section_dispatch.
  repeat (match goal with |- context [if ?c then _ else _] => destruct c end;
          simpl; try discriminate).
  all: intros H; conversion_throws H.
Qed.

Lemma generateSection_prompt_throws (date difficulty language section options : JsVal)
      (e : Exn) :
  generateSection_prompt JSON_stringify nonce date difficulty language section options =
    Throw e ->
  e = cannot_convert.
Proof.
  unfold generateSection_prompt. intros H.
  apply bind_throws in H as [H | (task & _ & H)].
  - exact (section_dispatch_throws _ _ _ H).
  - exact (section_prompt_throws _ _ _ _ _ _ _ H).
Qed.

Lemma suggestTopics_prompt_throws (date language : JsVal) (e : Exn) :
  suggestTopics_prompt date language = Throw e -> e = cannot_convert.
Proof. unfold suggestTopics_prompt. intros H. conversion_throws H. Qed.

(** A POST whose [type] is [generateSection] builds the prompt of the
    body's fields; when that succeeds it makes exactly one provider call,
    with that prompt and the schema the [switch] selected; when it throws,
    the exception goes to the [catch] clause and no call is made. *)
Lemma handler_generateSection (req : Request) :
  method req = "POST" ->
  member (body req) "type" = JStr "generateSection" ->
  let field := member (body req) in
  handler JSON_parse JSON_stringify generateContent nonce req =
  match generateSection_prompt JSON_stringify nonce (field "date") (field "difficulty")
                               (field "language") (field "section") (field "options") with
  | Ok prompt =>
      let params := mkParams "gemini-3-flash-preview" prompt "application/json"
                             (fst (section_dispatch (field "section") (field "options"))) in
      mkRun [params] (Ok (call_and_reply JSON_parse generateContent params "{}"))
  | Throw error => mkRun [] (Ok (on_error error))
  end.
Proof.
  intros Hm Ht. unfold handler. rewrite Hm, Ht.
  destruct (body req); try discriminate Ht. reflexivity.
Qed.

(** C1 (as amended).  The language rule is a fixed sentence of the prompt
    template: for every date, difficulty, section and options there are a
    text [pre] and a text [post], neither depending on the language, such
    that every prompt the handler builds, for any language, is [pre], the
    line naming that language (its conversion to a string), and [post]; and
    [post] contains the rule ("If Primary Language is Hindi, you MUST
    generate ALL text content ... in Hindi script (Devanagari) ... provide
    a Hindi word with its Hindi meaning and usage").  The rule is therefore
    in the Hindi prompt and, word for word, in the English one.  A prompt
    is built exactly when the task instruction and the four interpolated
    fields can be converted to strings. *)
Theorem language_rule_in_every_prompt (date difficulty section options : JsVal) :
  exists pre post : string,
    contains LANGUAGE_RULE post /\
    forall language : JsVal,
      let prompt :=
        generateSection_prompt JSON_stringify nonce date difficulty language section options in
      (forall text : string,
         prompt = Ok text ->
         exists named : string,
           ToString language = Ok named /\
           text = pre +:+ "Primary Language: " +:+ named +:+ "." +:+ post) /\
      ((exists text, prompt = Ok text) <->
       (exists task, snd (section_dispatch section options) = Ok task) /\
       converts date = true /\ converts difficulty = true /\
       converts language = true /\ converts section = true).
Proof.
  unfold generateSection_prompt, section_prompt, converts.
  destruct (snd (section_dispatch section options)) as [task | e1];
    destruct (ToString date) as [d | e2];
    destruct (ToString difficulty) as [f | e3];
    destruct (ToString section) as [s | e4]; simpl.
  1: { exists ("Generate school assembly content for the date: " +:+ d +:+ "." +:+ br +:+
               "Target Audience Difficulty Level: " +:+ f +:+ "." +:+ br).
       eexists. split; cycle 1.
       - intros language. destruct (ToString language) as [l | e5]; simpl; split.
         + intros text [= <-]. exists l. split; [reflexivity |].
           rewrite !append_assoc. reflexivity.
         + split; [intros _; repeat split; eauto | eauto].
         + discriminate.
         + split; [intros (text & H); discriminate H | intros (_ & _ & _ & H & _); discriminate H].
       - find_piece. }
  all: exists EmptyString, LANGUAGE_RULE; (split; [apply contains_self |]);
    intros language; destruct (ToString language); simpl;
    (split; [discriminate |]);
    (split; [intros (text & H); discriminate H |]);
    intros ((task' & Htask) & Hd & Hf & Hl & Hs); discriminate.
Qed.

(** C6 (as amended).  The repetition guard follows the truthiness of
    [options?.previousContent].  When that value is truthy the prompt is the
    template with, after the task instruction, a blank line and the guard
    clause quoting [JSON.stringify] of the value; the clause, serialization
    included, is a substring of every prompt built.  When the value is
    absent or falsy ([undefined], [null], [false], [0], the empty string)
    the guard text is empty and the prompt is the template with nothing
    between the task instruction and the end of its line. *)
Theorem repetition_guard_follows_truthiness
        (date difficulty language section options : JsVal) :
  let previous := opt_chain options "previousContent" in
  let prompt :=
    generateSection_prompt JSON_stringify nonce date difficulty language section options in
  let template (guard : string) :=
    let* task := snd (section_dispatch section options) in
    section_prompt nonce date difficulty language section task guard in
  (truthy previous = true ->
     let clause := REPETITION_GUARD +:+ JSON_stringify previous +:+ REPETITION_GUARD_END in
     prompt = template (newline +:+ newline +:+ clause) /\
     forall text : string, prompt = Ok text -> contains clause text)
  /\
  (truthy previous = false ->
     avoidRepetitionPrompt JSON_stringify options = EmptyString /\
     prompt = template EmptyString).
Proof.
  intros previous prompt template. subst previous prompt template.
  unfold generateSection_prompt, avoidRepetitionPrompt.
  rewrite <- (opt_chain_member options "previousContent").
  split; intros ->; (split; [reflexivity |]); [| reflexivity].
  intros text. unfold section_prompt.
  destruct (snd (section_dispatch section options)) as [task | e1]; simpl; [| discriminate].
  destruct (ToString date), (ToString difficulty), (ToString language), (ToString section);
    simpl; try discriminate.
  intros [= <-]. rewrite !append_assoc.
  repeat first [ apply contains_head3 | apply contains_append_r ].
Qed.

End PromptProperties.

(** The amended C6 at a request that quotes a previous word. *)
Lemma repetition_guard_witness :
  let options := JObj [("previousContent", JObj [("word", JStr "Serene")])] in
  exists text : string,
    generateSection_prompt json_stringify sample_nonce (JStr "2025-01-26")
      (JStr "Middle") (JStr "English") (JStr "word") options = Ok text /\
    truthy (opt_chain options "previousContent") = true /\
    contains (REPETITION_GUARD +:+
              json_stringify (JObj [("word", JStr "Serene")]) +:+
              REPETITION_GUARD_END) text.
Proof.
  intros options. eexists. split; [reflexivity |]. split; [reflexivity |].
  exact (proj2 (proj1 (repetition_guard_follows_truthiness
                         json_stringify sample_nonce (JStr "2025-01-26") (JStr "Middle")
                         (JStr "English") (JStr "word") options) eq_refl)
               _ eq_refl).
Defined.

(** C1, the counterexample.  The claim promises that an English request's
    prompt carries no instruction to write in Devanagari; the prompt built
    for an English [word] request names English as the language and
    contains the language rule. *)
Lemma english_prompt_includes_language_rule :
  exists text : string,
    generateSection_prompt json_stringify sample_nonce (JStr "2025-01-26")
      (JStr "Middle") (JStr "English") (JStr "word") JUndefined = Ok text /\
    contains "Primary Language: English." text /\
    contains LANGUAGE_RULE text /\
    contains "in Hindi script (Devanagari)" text.
Proof.
  eexists. split; [reflexivity |].
  repeat split; apply includes_spec; vm_compute; reflexivity.
Qed.

(** C6, the counterexample.  The claim promises the guard clause whenever
    [previousContent] is supplied; a request supplying [false] (likewise
    [0], the empty string or [null]) gets a prompt with no guard clause at
    all. *)
Lemma falsy_previous_content_gets_no_guard :
  let options := JObj [("previousContent", JBool false)] in
  exists text : string,
    generateSection_prompt json_stringify sample_nonce (JStr "2025-01-26")
      (JStr "Middle") (JStr "English") (JStr "word") options = Ok text /\
    member options "previousContent" = JBool false /\
    ~ contains (REPETITION_GUARD +:+ json_stringify (JBool false) +:+ REPETITION_GUARD_END)
               text /\
    ~ contains "REPETITION GUARD" text.
Proof.
  intros options. eexists. split; [reflexivity |]. split; [reflexivity |].
  split; apply not_includes_not_contains; vm_compute; reflexivity.
Qed.

(** ** The UI shell *)

Section ShellProperties.

Variable JSON_parse : string -> Result JsVal.
Variable JSON_stringify : JsVal -> string.

(** C8.  For an hour of the day, the greeting is "Good Morning" up to 11,
    "Good Afternoon" from 12 to 16 and "Good Evening" from 17 on; 12 is
    afternoon and 17 is evening. *)
Theorem greeting_boundaries (hour : Z) (st : AppState) :
  0 <= hour <= 23 ->
  (hour <= 11 -> greeting (updateGreeting hour st) = "Good Morning") /\
  (12 <= hour <= 16 -> greeting (updateGreeting hour st) = "Good Afternoon") /\
  (17 <= hour -> greeting (updateGreeting hour st) = "Good Evening").
Proof.
  intros Hday. unfold updateGreeting.
  destruct (Z.ltb_spec hour 12); [| destruct (Z.ltb_spec hour 17)]; simpl;
    repeat split; intros; first [reflexivity | lia].
Qed.

(** C5.  Called while offline, [handleGenerateSection] ends in its
    synchronous part: it performs no effect at all (no network call, whatever
    the network would have answered), sets the error to "No internet
    connection.", and leaves the loading flags and the data as they
    were. *)
Theorem offline_short_circuit (fetch : FetchCall -> FetchOutcome) (now : string)
        (section : SectionName) (st : AppState) :
  isOnline st = false ->
  let run := handleGenerateSection JSON_parse JSON_stringify fetch now section st in
  snd (handleGenerateSection_start JSON_stringify section st) = Returned /\
  snd run = [] /\
  error (fst run) = Some "No internet connection." /\
  loadingSections (fst run) = loadingSections st /\
  data (fst run) = data st.
Proof.
  intros Hoff. unfold handleGenerateSection, handleGenerateSection_start.
  rewrite Hoff. simpl. repeat split.
Qed.

(** C3 (as amended).  When the storage has no entry under
    [assembly_settings_v2], or an empty one, the settings cell starts as
    the default record; when it has none under [assembly_data_v2], or an
    empty one, the data cell starts as an empty record stamped with the
    current time; in these cases the initialisers do not fail.  A non-empty
    entry is handed to [JSON.parse]: the cell starts as whatever the parser
    returns, and the initialiser fails when the parser does. *)
Theorem persisted_state_fallback (now : string) (localStorage : gmap string string) :
  let defaults := JObj [("difficulty", JStr "Middle"); ("language", JStr "English");
                        ("themeColor", JStr "#6366f1"); ("isDarkMode", JBool true)] in
  let settings_entry := localStorage !! "assembly_settings_v2" in
  let data_entry := localStorage !! "assembly_data_v2" in
  (settings_entry = None \/ settings_entry = Some EmptyString ->
     init_settings JSON_parse localStorage = Ok defaults) /\
  (data_entry = None \/ data_entry = Some EmptyString ->
     init_data JSON_parse now localStorage = Ok (JObj [("timestamp", JStr now)])) /\
  (forall saved : string,
     saved <> EmptyString -> settings_entry = Some saved ->
     init_settings JSON_parse localStorage = JSON_parse saved) /\
  (forall saved : string,
     saved <> EmptyString -> data_entry = Some saved ->
     init_data JSON_parse now localStorage = JSON_parse saved).
Proof.
  intros defaults settings_entry data_entry. subst defaults settings_entry data_entry.
  unfold init_settings, init_data.
  split; [| split; [| split]].
  - now intros [-> | ->].
  - now intros [-> | ->].
  - intros saved Hne ->. simpl.
    now destruct (String.eqb_spec saved EmptyString).
  - intros saved Hne ->. simpl.
    now destruct (String.eqb_spec saved EmptyString).
Qed.

(** The state after a successful merge. *)
Lemma merged_data (key now : string) (result prev : JsVal) :
  key <> "timestamp" ->
  let merged := JObj (set_prop "timestamp" (JStr now) (set_prop key result (own_props prev))) in
  member merged key = result /\
  member merged "timestamp" = JStr now /\
  (forall k, k <> key -> k <> "timestamp" ->
             lookup_prop k (own_props merged) = lookup_prop k (own_props prev)).
Proof.
  intros Hkey merged. subst merged. simpl. repeat split.
  - rewrite lookup_set_prop_ne by congruence. now rewrite lookup_set_prop_eq.
  - now rewrite lookup_set_prop_eq.
  - intros k Hk Hts. now rewrite !lookup_set_prop_ne by congruence.
Qed.

(** The continuation of [handleGenerateSection], whatever happened to the
    state while the call was in flight: relative to the state it resumes
    in, a resolved call replaces the section's field and the timestamp and
    nothing else, a failed call leaves the data alone, and in both cases
    the section's flag ends false and no other flag moves. *)
Lemma resume_frame (section : SectionName) (captured : AppState) (o : FetchOutcome)
      (now : string) (st : AppState) :
  let key := section_key section in
  let st' := fst (handleGenerateSection_resume JSON_parse section captured o now st) in
  loadingSections st' !! key = Some false /\
  (forall k, k <> key -> loadingSections st' !! k = loadingSections st !! k) /\
  (forall result, generateSection_settle JSON_parse o = Ok result ->
     data st' = JObj (set_prop "timestamp" (JStr now)
                        (set_prop key result (own_props (data st))))) /\
  (forall e, generateSection_settle JSON_parse o = Throw e -> data st' = data st).
Proof.
  intros key st'. subst key st'. unfold handleGenerateSection_resume.
  destruct (generateSection_settle JSON_parse o) as [result | e].
  - destruct (get_prop (settings captured) "themeColor"); simpl;
      (repeat split;
       [ apply lookup_insert_eq
       | intros k Hk; now apply lookup_insert_ne
       | now intros ? [= ->]
       | discriminate ]).
  - simpl. repeat split;
      [ apply lookup_insert_eq
      | intros k Hk; now apply lookup_insert_ne
      | discriminate ].
Qed.




End ShellProperties.

(** C8 at the two boundaries. *)
Lemma greeting_boundaries_witness :
  greeting (updateGreeting 12 online_state) = "Good Afternoon" /\
  greeting (updateGreeting 17 online_state) = "Good Evening".
Proof.
  split.
  - apply (greeting_boundaries 12 online_state); lia.
  - apply (greeting_boundaries 17 online_state); lia.
Defined.

(** C5 at a session that went offline with a [word] request in flight: the
    flag of that request stays set. *)
Lemma offline_short_circuit_witness :
  isOnline offline_state = false /\
  let run := handleGenerateSection json_parse json_stringify (ok_network "{}")
               "2025-01-26T04:00:00.000Z" word offline_state in
  snd run = [] /\
  error (fst run) = Some "No internet connection." /\
  loadingSections (fst run) = {["word" := true]} /\
  data (fst run) = data offline_state.
Proof.
  split; [reflexivity |].
  exact (proj2 (offline_short_circuit json_parse json_stringify (ok_network "{}")
                  "2025-01-26T04:00:00.000Z" word offline_state eq_refl)).
Defined.

(** C3, the counterexample.  The claim promises the defaults, and no
    failure, for malformed stored content; with truncated entries under the
    two keys both initialisers throw the parser's SyntaxError, and a
    well-formed entry of the wrong shape becomes the state as it is. *)
Lemma malformed_entry_fails_to_load :
  init_settings json_parse truncated_storage = Throw syntax_error /\
  init_data json_parse "2025-01-26T03:00:00.000Z" truncated_storage = Throw syntax_error /\
  init_settings json_parse {["assembly_settings_v2" := "42"]} = Ok (JNum 42).
Proof. vm_compute. repeat split; reflexivity. Qed.

(** The amended C3 at an empty storage and at one holding the text [{}]. *)
Lemma persisted_state_fallback_witness :
  init_settings json_parse ∅ = Ok DEFAULT_SETTINGS /\
  init_data json_parse "2025-01-26T03:00:00.000Z" ∅ =
    Ok (JObj [("timestamp", JStr "2025-01-26T03:00:00.000Z")]) /\
  init_settings json_parse {["assembly_settings_v2" := "{}"]} = json_parse "{}".
Proof.
  split; [| split].
  - exact (proj1 (persisted_state_fallback json_parse "2025-01-26T03:00:00.000Z" ∅)
                 (or_introl eq_refl)).
  - exact (proj1 (proj2 (persisted_state_fallback json_parse "2025-01-26T03:00:00.000Z" ∅))
                 (or_introl eq_refl)).
  - exact (proj1 (proj2 (proj2 (persisted_state_fallback json_parse
                                  "2025-01-26T03:00:00.000Z"
                                  {["assembly_settings_v2" := "{}"]})))
                 "{}" ltac:(discriminate) eq_refl).
Defined.


(** ** The Generation Client *)

Section ClientProperties.

Variable JSON_parse : string -> Result JsVal.
Variable JSON_stringify : JsVal -> string.

(** C2 (as amended).  When the response to its request is not [ok],
    [generateSection] (and likewise [suggestTopics]) always raises.  What
    it raises follows the body of the response:
    - a body that parses to a value other than [null] whose [error] field is
      truthy: an [Error] whose message is that field converted to a string,
      so the field itself when it is a string (the Proxy's string); when
      the field cannot be converted (an object with an own [toString]
      property), the TypeError of the conversion;
    - such a body with no [error] field, or a falsy one: an [Error] with the
      generic message of the operation;
    - a body that parses to [null]: the TypeError of reading [error] on it;
    - a body the parser rejects: the parser's own exception, not the
      generic message. *)
Theorem failed_response_raises (fetch : FetchCall -> FetchOutcome)
        (section date difficulty language options : JsVal) (body_text : string) :
  fetch (generateSection_call JSON_stringify section date difficulty language options) =
    FetchResponse false body_text ->
  fetch (suggestTopics_call JSON_stringify date language) = FetchResponse false body_text ->
  let generated :=
    generateSection JSON_parse JSON_stringify fetch section date difficulty language options in
  let suggested := suggestTopics JSON_parse JSON_stringify fetch date language in
  ((exists e, generated = Throw e) /\ (exists e, suggested = Throw e)) /\
  (forall parsed : JsVal,
      JSON_parse body_text = Ok parsed -> nullish parsed = false ->
      let reported := member parsed "error" in
      (truthy reported = true ->
         (forall message : string,
            ToString reported = Ok message ->
            generated = Throw (mkExn "Error" (JStr message)) /\
            suggested = Throw (mkExn "Error" (JStr message))) /\
         (forall message : string,
            reported = JStr message ->
            generated = Throw (mkExn "Error" (JStr message)) /\
            suggested = Throw (mkExn "Error" (JStr message))) /\
         (converts reported = false ->
            generated = Throw cannot_convert /\ suggested = Throw cannot_convert)) /\
      (truthy reported = false ->
         generated = Throw (mkExn "Error" (JStr "Failed to generate content")) /\
         suggested = Throw (mkExn "Error" (JStr "Failed to suggest topics")))) /\
  (forall parsed : JsVal,
      JSON_parse body_text = Ok parsed -> nullish parsed = true ->
      generated = Throw (read_of_nullish parsed "error") /\
      suggested = Throw (read_of_nullish parsed "error")) /\
  (forall e : Exn,
      JSON_parse body_text = Throw e -> generated = Throw e /\ suggested = Throw e).
Proof.
  intros Hgen Hsug generated suggested. subst generated suggested.
  unfold generateSection, suggestTopics. rewrite Hgen, Hsug.
  unfold generateSection_settle, suggestTopics_settle, response_json, new_Error. simpl.
  destruct (JSON_parse body_text) as [parsed | e0] eqn:Hparse; simpl.
  - split; [| split; [| split]].
    + unfold get_prop, or_else. destruct (nullish parsed); simpl; [split; eauto |].
      destruct (truthy (member parsed "error")); simpl; [| split; eauto].
      destruct (ToString (member parsed "error")); simpl; split; eauto.
    + intros parsed' [= <-] Hnn. unfold get_prop, or_else. rewrite Hnn. simpl.
      split; intros ->; simpl; [| now split].
      split; [| split].
      * intros message ->. now split.
      * intros message ->. now split.
      * intros Hno. apply converts_false in Hno. rewrite Hno. now split.
    + intros parsed' [= <-] Hnull. unfold get_prop. rewrite Hnull. now split.
    + discriminate.
  - split; [| split; [| split]].
    + split; eauto.
    + discriminate.
    + discriminate.
    + intros e [= <-]. split; reflexivity.
Qed.

End ClientProperties.

(** The amended C2 at a 500 carrying the Proxy's message. *)
Lemma failed_response_raises_witness :
  let fetch := failed_network reported_failure in
  json_parse reported_failure = Ok (JObj [("error", JStr "API key not valid")]) /\
  generateSection json_parse json_stringify fetch (JStr "word") (JStr "2025-01-26")
                  (JStr "Middle") (JStr "English") JUndefined =
    Throw (mkExn "Error" (JStr "API key not valid")) /\
  suggestTopics json_parse json_stringify fetch (JStr "2025-01-26") (JStr "English") =
    Throw (mkExn "Error" (JStr "API key not valid")).
Proof.
  intros fetch. split; [reflexivity |].
  exact (proj1 (proj1 (proj1 (proj2 (failed_response_raises json_parse json_stringify fetch
                                       (JStr "word") (JStr "2025-01-26") (JStr "Middle")
                                       (JStr "English") JUndefined reported_failure
                                       eq_refl eq_refl))
                         (JObj [("error", JStr "API key not valid")]) eq_refl eq_refl)
                      eq_refl)
               "API key not valid" eq_refl).
Defined.

(** The amended C2 at a failed response whose [error] field is an object
    with a property named [toString]: the operations raise the TypeError of
    the conversion, and no [Error] carrying a message. *)
Example failed_response_with_unconvertible_error :
  let body := json_stringify (JObj [("error", JObj [("toString", JNum 0)])]) in
  let fetch := failed_network body in
  json_parse body = Ok (JObj [("error", JObj [("toString", JNum 0)])]) /\
  generateSection json_parse json_stringify fetch (JStr "word") (JStr "2025-01-26")
                  (JStr "Middle") (JStr "English") JUndefined = Throw cannot_convert /\
  suggestTopics json_parse json_stringify fetch (JStr "2025-01-26") (JStr "English") =
    Throw cannot_convert.
Proof. vm_compute. repeat split; reflexivity. Qed.

(** C2, the counterexample.  The claim promises the generic message for an
    unparseable error body; when the failed response carries a gateway's
    HTML error page both operations raise the parser's SyntaxError, whose
    message is not the generic one. *)
Lemma unparseable_error_body_raises_parser_error :
  let page := "<html>502 Bad Gateway</html>" in
  let fetch := failed_network page in
  json_parse page = Throw syntax_error /\
  generateSection json_parse json_stringify fetch (JStr "word") (JStr "2025-01-26")
                  (JStr "Middle") (JStr "English") JUndefined = Throw syntax_error /\
  suggestTopics json_parse json_stringify fetch (JStr "2025-01-26") (JStr "English") =
    Throw syntax_error /\
  exn_message syntax_error <> JStr "Failed to generate content" /\
  exn_message syntax_error <> JStr "Failed to suggest topics".
Proof. vm_compute. repeat split; try reflexivity; discriminate. Qed.

(** ** The Generation Proxy *)

Section ProxyProperties.

Variable JSON_parse : string -> Result JsVal.
Variable JSON_stringify : JsVal -> string.
Variable generateContent : GenerateContentParams -> Result GenerateContentResponse.
Variable nonce : string.

Lemma is_str_false (lit : string) (v : JsVal) : v <> JStr lit -> is_str lit v = false.
Proof.
  intros Hne. destruct (is_str lit v) eqn:E; [| reflexivity].
  apply is_str_true in E. contradiction.
Qed.

(** A POST whose [type] is [suggestTopics] builds the prompt; when that
    succeeds it makes exactly one provider call; when it throws, the
    exception goes to the [catch] clause and no call is made. *)
Lemma handler_suggestTopics (req : Request) :
  method req = "POST" ->
  member (body req) "type" = JStr "suggestTopics" ->
  handler JSON_parse JSON_stringify generateContent nonce req =
  match suggestTopics_prompt (member (body req) "date") (member (body req) "language") with
  | Ok prompt =>
      let params := mkParams "gemini-3-flash-preview" prompt "application/json"
                             (Some (TArray TString)) in
      mkRun [params] (Ok (call_and_reply JSON_parse generateContent params "[]"))
  | Throw error => mkRun [] (Ok (on_error error))
  end.
Proof.
  intros Hm Ht. unfold handler. rewrite Hm, Ht.
  destruct (body req); try discriminate Ht. reflexivity.
Qed.

(** C4 (as amended).  A request whose method is not POST is answered 405
    "Method not allowed".  A POST that carries a body (anything but [null]
    or [undefined]) whose [type] is neither [suggestTopics] nor
    [generateSection] is answered 400 "Invalid request type".  When the
    handler calls the provider, an exception from the call, or from parsing
    the text it returned, is answered 500 with the exception's message, or
    "Internal Server Error" when the message is missing or empty. *)
Theorem proxy_error_responses (req : Request) :
  let run := handler JSON_parse JSON_stringify generateContent nonce req in
  let type := member (body req) "type" in
  let failure (e : Exn) :=
    mkResponse 500 (JObj [("error", if truthy (exn_message e) then exn_message e
                                    else JStr "Internal Server Error")]) in
  (method req <> "POST" ->
     run = mkRun [] (Ok (mkResponse 405 (JObj [("error", JStr "Method not allowed")])))) /\
  (method req = "POST" -> nullish (body req) = false ->
     type <> JStr "suggestTopics" -> type <> JStr "generateSection" ->
     run = mkRun [] (Ok (mkResponse 400 (JObj [("error", JStr "Invalid request type")])))) /\
  (forall params : GenerateContentParams,
     calls run = [params] ->
     let fallback := if is_str "suggestTopics" type then "[]" else "{}" in
     (forall e, generateContent params = Throw e -> outcome run = Ok (failure e)) /\
     (forall response e,
        generateContent params = Ok response ->
        JSON_parse (text_or (text response) fallback) = Throw e ->
        outcome run = Ok (failure e))).
Proof.
  intros run type failure. subst run type failure. unfold handler.
  destruct (String.eqb_spec (method req) "POST") as [Hm | Hm]; simpl.
  2: { split; [reflexivity |]. split; [contradiction |]. discriminate. }
  split; [contradiction |].
  destruct (nullish (body req)) eqn:Hnull.
  { split; [discriminate |]. discriminate. }
  destruct (is_str "suggestTopics" (member (body req) "type")) eqn:Hs.
  { apply is_str_true in Hs. split; [intros; contradiction |].
    destruct (suggestTopics_prompt _ _) as [prompt | error]; simpl; [| discriminate].
    intros params [= <-]. unfold call_and_reply, try_catch, on_error, or_else, error_body.
    split.
    - intros e ->. reflexivity.
    - intros response e Hgen Hparse. rewrite Hgen. simpl in *. now rewrite Hparse. }
  destruct (is_str "generateSection" (member (body req) "type")) eqn:Hg.
  { apply is_str_true in Hg. split; [intros; contradiction |].
    destruct (generateSection_prompt _ _ _ _ _ _ _) as [prompt | error]; simpl; [| discriminate].
    intros params [= <-]. unfold call_and_reply, try_catch, on_error, or_else, error_body.
    split.
    - intros e ->. reflexivity.
    - intros response e Hgen Hparse. rewrite Hgen. simpl in *. now rewrite Hparse. }
  split; [reflexivity | discriminate].
Qed.

(** C10 (as amended).  A POST of type [generateSection] whose [section] is
    none of the five names is not refused with a 4xx: the [switch] leaves
    the task instruction empty and the schema undefined, and the handler
    goes on to the prompt template.  When the date, the difficulty, the
    language and the section can be converted to strings, the handler calls
    the provider once, with the template filled with the empty task and
    with no response schema, and answers 200 with whatever the returned
    text (or the fallback [{}]) parses to, or 500 when the call or the
    parse throws.  When one of them cannot be converted (an object with an
    own [toString] property, the section itself for instance), the template
    throws inside the [try]: the provider is not called and the answer is
    500 with the TypeError's message. *)
Theorem unknown_section_reaches_provider (req : Request) :
  method req = "POST" ->
  member (body req) "type" = JStr "generateSection" ->
  let field := member (body req) in
  let section := field "section" in
  section <> JStr "word" -> section <> JStr "thought" -> section <> JStr "news" ->
  section <> JStr "special_item" -> section <> JStr "celebration" ->
  let run := handler JSON_parse JSON_stringify generateContent nonce req in
  let template :=
    section_prompt nonce (field "date") (field "difficulty") (field "language") section
                   EmptyString (avoidRepetitionPrompt JSON_stringify (field "options")) in
  let failure (e : Exn) :=
    mkResponse 500 (JObj [("error", if truthy (exn_message e) then exn_message e
                                    else JStr "Internal Server Error")]) in
  section_dispatch section (field "options") = (None, Ok EmptyString) /\
  ((exists prompt, template = Ok prompt) <->
   converts (field "date") = true /\ converts (field "difficulty") = true /\
   converts (field "language") = true /\ converts section = true) /\
  (forall prompt : string,
     template = Ok prompt ->
     let params := mkParams "gemini-3-flash-preview" prompt "application/json" None in
     calls run = [params] /\
     outcome run =
       Ok (match generateContent params with
           | Throw e => failure e
           | Ok response =>
               match JSON_parse (text_or (text response) "{}") with
               | Ok parsed => mkResponse 200 parsed
               | Throw e => failure e
               end
           end)) /\
  (forall e : Exn,
     template = Throw e ->
     calls run = [] /\
     outcome run =
       Ok (mkResponse 500
             (JObj [("error", JStr "Cannot convert object to primitive value")]))) /\
  (exists response, outcome run = Ok response /\ (status response = 200 \/ status response = 500)).
Proof.
  intros Hm Ht field section Hw Hth Hn Hsp Hc run template failure.
  assert (Hswitch : section_dispatch section (field "options") = (None, Ok EmptyString)).
  { unfold section_dispatch. now rewrite !is_str_false by assumption. }
  assert (Hrun : run = match template with
                       | Ok prompt =>
                           let params := mkParams "gemini-3-flash-preview" prompt
                                                  "application/json" None in
                           mkRun [params]
                                 (Ok (call_and_reply JSON_parse generateContent params "{}"))
                       | Throw error => mkRun [] (Ok (on_error error))
                       end).
  { subst run.
    rewrite (handler_generateSection JSON_parse JSON_stringify generateContent nonce req Hm Ht).
    unfold generateSection_prompt. fold field section. rewrite Hswitch. reflexivity. }
  split; [exact Hswitch |].
  split; [apply section_prompt_built |].
  clearbody run. subst run.
  destruct template as [prompt | e0] eqn:Htemplate.
  - split; [| split; [discriminate |]].
    + intros prompt' [= <-]. simpl. split; [reflexivity |].
      unfold call_and_reply, try_catch, on_error, or_else, error_body. subst failure.
      destruct (generateContent _) as [response | e]; simpl; [| reflexivity].
      now destruct (JSON_parse _).
    + simpl. unfold call_and_reply, try_catch, on_error.
      destruct (generateContent _) as [response | e]; simpl; [| eauto].
      destruct (JSON_parse _); simpl; eauto.
  - apply section_prompt_throws in Htemplate as ->.
    split; [discriminate |]. split; [intros e _; now split |]. simpl. eauto.
Qed.

(** What the platform's parser does on the two fallback texts. *)
Hypothesis parse_empty_array : JSON_parse "[]" = Ok (JArr []).
Hypothesis parse_empty_object : JSON_parse "{}" = Ok (JObj []).

(** C9.  When the provider's response has no text, or an empty one, the
    handler still answers 200: with the empty array in [suggestTopics]
    mode, with the empty object in [generateSection] mode, an object that
    has none of the fields of the section's record. *)
Theorem empty_model_text_is_success (req : Request) (params : GenerateContentParams)
        (response : GenerateContentResponse) :
  let run := handler JSON_parse JSON_stringify generateContent nonce req in
  method req = "POST" ->
  calls run = [params] ->
  generateContent params = Ok response ->
  text response = None \/ text response = Some EmptyString ->
  (member (body req) "type" = JStr "suggestTopics" ->
     outcome run = Ok (mkResponse 200 (JArr []))) /\
  (member (body req) "type" = JStr "generateSection" ->
     outcome run = Ok (mkResponse 200 (JObj [])) /\
     forall field : string, member (JObj []) field = JUndefined).
Proof.
  intros run Hm Hcalls Hgen Htext. subst run.
  assert (Hfallback : forall fallback, text_or (text response) fallback = fallback).
  { intros fallback. unfold text_or. now destruct Htext as [-> | ->]. }
  split; intros Ht.
  - rewrite (handler_suggestTopics req Hm Ht) in Hcalls |- *.
    destruct (suggestTopics_prompt _ _) as [prompt | error]; simpl in *; [| discriminate].
    injection Hcalls as Hp. rewrite Hp. unfold call_and_reply.
    rewrite Hgen. simpl. now rewrite Hfallback, parse_empty_array.
  - rewrite (handler_generateSection JSON_parse JSON_stringify generateContent nonce req Hm Ht)
      in Hcalls |- *.
    destruct (generateSection_prompt _ _ _ _ _ _ _) as [prompt | error]; simpl in *;
      [| discriminate].
    injection Hcalls as Hp. rewrite Hp. unfold call_and_reply.
    rewrite Hgen. simpl. rewrite Hfallback, parse_empty_object. now split.
Qed.

End ProxyProperties.

(** C4, the counterexample.  The claim promises 400 for every POST whose
    [type] is neither of the two modes; a POST with no body, or with the
    JSON body [null], has no such [type], and the handler answers nothing:
    the destructuring of [req.body], which stands before the [try], throws
    a TypeError out of the function. *)
Lemma post_without_body_is_not_answered :
  let no_body := mkRequest "POST" JUndefined in
  let null_body := mkRequest "POST" JNull in
  member (body no_body) "type" <> JStr "suggestTopics" /\
  member (body no_body) "type" <> JStr "generateSection" /\
  handler json_parse json_stringify silent_provider sample_nonce no_body =
    mkRun [] (Throw (destructure_error JUndefined)) /\
  handler json_parse json_stringify silent_provider sample_nonce null_body =
    mkRun [] (Throw (destructure_error JNull)).
Proof. vm_compute. repeat split; try reflexivity; discriminate. Qed.

(** The amended C4 at a GET, at a POST of an unknown type, and at a
    [suggestTopics] POST whose provider call rejects. *)
Lemma proxy_error_responses_witness :
  let run := handler json_parse json_stringify failing_provider sample_nonce in
  run (mkRequest "GET" JUndefined) =
    mkRun [] (Ok (mkResponse 405 (JObj [("error", JStr "Method not allowed")]))) /\
  run (mkRequest "POST" (JObj [("type", JStr "unknown")])) =
    mkRun [] (Ok (mkResponse 400 (JObj [("error", JStr "Invalid request type")]))) /\
  outcome (run (mkRequest "POST" (JObj [("type", JStr "suggestTopics")]))) =
    Ok (mkResponse 500 (JObj [("error", JStr "API key not valid")])).
Proof.
  intros run. subst run. split; [| split].
  - apply (proxy_error_responses json_parse json_stringify failing_provider sample_nonce
             (mkRequest "GET" JUndefined)).
    discriminate.
  - apply (proxy_error_responses json_parse json_stringify failing_provider sample_nonce
             (mkRequest "POST" (JObj [("type", JStr "unknown")])));
      first [reflexivity | discriminate].
  - exact (proj1 (proj2 (proj2 (proxy_error_responses json_parse json_stringify
                                  failing_provider sample_nonce
                                  (mkRequest "POST" (JObj [("type", JStr "suggestTopics")]))))
                    _ eq_refl)
                 _ eq_refl).
Defined.

(** C9 at a provider that returns no text, in both modes. *)
Lemma empty_model_text_is_success_witness :
  let topics := mkRequest "POST" (JObj [("type", JStr "suggestTopics");
                                        ("date", JStr "2025-01-26");
                                        ("language", JStr "Hindi")]) in
  let section := mkRequest "POST" (JObj [("type", JStr "generateSection");
                                         ("section", JStr "word");
                                         ("date", JStr "2025-01-26");
                                         ("difficulty", JStr "Middle");
                                         ("language", JStr "English")]) in
  let run := handler json_parse json_stringify silent_provider sample_nonce in
  outcome (run topics) = Ok (mkResponse 200 (JArr [])) /\
  outcome (run section) = Ok (mkResponse 200 (JObj [])).
Proof.
  intros topics section run. subst run. split.
  - exact (proj1 (empty_model_text_is_success json_parse json_stringify silent_provider
                    sample_nonce eq_refl eq_refl topics _ (mkGenResponse None)
                    eq_refl eq_refl eq_refl (or_introl eq_refl))
                 eq_refl).
  - exact (proj1 (proj2 (empty_model_text_is_success json_parse json_stringify silent_provider
                           sample_nonce eq_refl eq_refl section _ (mkGenResponse None)
                           eq_refl eq_refl eq_refl (or_introl eq_refl))
                        eq_refl)).
Defined.

(** The amended C10 at a request for a section named [weather], with a
    provider that returns an array. *)
Lemma unknown_section_reaches_provider_witness :
  let req := mkRequest "POST" (JObj [("type", JStr "generateSection");
                                     ("section", JStr "weather");
                                     ("date", JStr "2025-01-26");
                                     ("difficulty", JStr "Middle");
                                     ("language", JStr "English")]) in
  let run := handler json_parse json_stringify (constant_provider "[1, 2]") sample_nonce req in
  (exists params, calls run = [params] /\ responseSchema params = None) /\
  outcome run = Ok (mkResponse 200 (JArr [JNum 1; JNum 2])).
Proof.
  intros req run.
  destruct (unknown_section_reaches_provider json_parse json_stringify
              (constant_provider "[1, 2]") sample_nonce req eq_refl eq_refl
              ltac:(discriminate) ltac:(discriminate) ltac:(discriminate)
              ltac:(discriminate) ltac:(discriminate))
    as (_ & _ & Hsent & _).
  destruct (Hsent _ eq_refl) as (Hcalls & Hout).
  split.
  - eexists. split; [exact Hcalls | reflexivity].
  - exact Hout.
Defined.

(** C10, the counterexample.  The claim promises that a request whose
    section is outside the five names still reaches the provider.  A POST
    whose [section] is the JSON object with a member named [toString] is
    such a request; the template cannot convert that section to a string,
    the TypeError is caught, and the handler answers 500 without having
    called the provider. *)
Lemma unconvertible_section_is_not_sent :
  let body := JObj [("type", JStr "generateSection");
                    ("section", JObj [("toString", JNum 0)]);
                    ("date", JStr "2025-01-26");
                    ("difficulty", JStr "Middle");
                    ("language", JStr "English")] in
  let run := handler json_parse json_stringify (constant_provider "{}") sample_nonce
               (mkRequest "POST" body) in
  json_parse (json_stringify body) = Ok body /\
  (forall s : SectionName, member body "section" <> JStr (section_key s)) /\
  calls run = [] /\
  outcome run =
    Ok (mkResponse 500 (JObj [("error", JStr "Cannot convert object to primitive value")])).
Proof.
  intros body run. split; [reflexivity |]. split; [intros s; discriminate |].
  split; reflexivity.
Qed.


(** * Further properties *)

Import Session Card Render Types Wire MoreSamples.

(** ** Reading properties *)

Section Reads.

Lemma get_prop_ok (v : JsVal) (k : string) :
  nullish v = false -> get_prop v k = Ok (member v k).
Proof. intros H. unfold get_prop. now rewrite H. Qed.

Lemma get_prop_inv (v : JsVal) (k : string) (x : JsVal) :
  get_prop v k = Ok x -> nullish v = false /\ x = member v k.
Proof. unfold get_prop. destruct (nullish v); [discriminate | now intros [= <-]]. Qed.

Lemma member_update_setting (k : string) (v settings : JsVal) :
  member (update_setting k v settings) k = v.
Proof. unfold update_setting. simpl. now rewrite lookup_set_prop_eq. Qed.

Lemma update_setting_other (k k' : string) (v settings : JsVal) :
  k <> k' ->
  lookup_prop k' (own_props (update_setting k v settings)) = lookup_prop k' (own_props settings).
Proof. intros Hne. unfold update_setting. simpl. now apply lookup_set_prop_ne. Qed.

End Reads.

(** ** Persistence *)

Section PersistenceProperties.

Variable JSON_parse : string -> Result JsVal.
Variable JSON_stringify : JsVal -> string.

(** X1.  Settings survive a reload.  For settings that [JSON.parse] reads
    back from their [JSON.stringify] text (a text that is not empty), the
    lazy initialiser run on the storage left by the settings effect yields
    those settings; what the data initialiser would load is not affected. *)
Theorem settings_survive_reload (settings : JsVal) (page : Page) :
  JSON_parse (JSON_stringify settings) = Ok settings ->
  JSON_stringify settings <> EmptyString ->
  let page' := fst (settings_effect JSON_stringify settings page) in
  init_settings JSON_parse (page_storage page') = Ok settings /\
  (forall now, init_data JSON_parse now (page_storage page') =
               init_data JSON_parse now (page_storage page)).
Proof.
  intros Hlaw Hne page'. subst page'.
  assert (Hst : page_storage (fst (settings_effect JSON_stringify settings page)) =
                <["assembly_settings_v2" := JSON_stringify settings]> (page_storage page)).
  { unfold settings_effect.
    destruct (get_prop settings "isDarkMode"); [| reflexivity].
    now destruct (css_value (member settings "themeColor")). }
  rewrite Hst. split.
  - unfold init_settings. rewrite lookup_insert_eq. simpl.
    destruct (String.eqb_spec (JSON_stringify settings) EmptyString); [contradiction |].
    exact Hlaw.
  - intros now. unfold init_data. now rewrite lookup_insert_ne.
Qed.

(** X2.  The data survives a reload.  For data that [JSON.parse] reads back
    from its [JSON.stringify] text (a text that is not empty), the lazy
    initialiser run on the storage left by the data effect yields that
    data, whatever the time of the reload; what the settings initialiser
    would load, the body classes and the root style are not affected. *)
Theorem data_survives_reload (data : JsVal) (page : Page) (now : string) :
  JSON_parse (JSON_stringify data) = Ok data ->
  JSON_stringify data <> EmptyString ->
  let page' := data_effect JSON_stringify data page in
  init_data JSON_parse now (page_storage page') = Ok data /\
  init_settings JSON_parse (page_storage page') = init_settings JSON_parse (page_storage page) /\
  page_body_classes page' = page_body_classes page /\
  page_root_style page' = page_root_style page.
Proof.
  intros Hlaw Hne page'. subst page'. unfold data_effect. simpl.
  split; [| split; [| split; reflexivity]].
  - unfold init_data. rewrite lookup_insert_eq. simpl.
    destruct (String.eqb_spec (JSON_stringify data) EmptyString); [contradiction |].
    exact Hlaw.
  - unfold init_settings. now rewrite lookup_insert_ne.
Qed.

End PersistenceProperties.

Section ThemeProperties.

Variable JSON_stringify : JsVal -> string.

Lemma css_value_throws (v : JsVal) (e : Exn) : css_value v = Throw e -> e = cannot_convert.
Proof. destruct v; try discriminate; apply ToString_throws. Qed.

(** X3.  The theme of the page follows the settings.  After the settings
    effect on settings that are neither [null] nor [undefined], the body
    carries the class [light-mode] exactly when [isDarkMode] is falsy and
    every other class is as before.  The theme colour reaches
    [setProperty] as a string.  When [settings.themeColor] can be converted
    ([null] to the empty string), the effect does not throw and its one
    [setProperty] call, the last on the root style, hands that string under
    [--theme-color]: the colour itself when it is a string.  When it cannot
    be converted, the effect ends with the TypeError of the conversion,
    after the storage and the class list were updated, and makes no
    [setProperty] call.  Running the effect a second time changes neither
    the storage nor the classes. *)
Theorem settings_effect_themes_page (settings : JsVal) (page : Page) :
  nullish settings = false ->
  let run := settings_effect JSON_stringify settings page in
  let again := settings_effect JSON_stringify settings (fst run) in
  let theme := member settings "themeColor" in
  ("light-mode" ∈ page_body_classes (fst run) <->
     truthy (member settings "isDarkMode") = false) /\
  (forall c : string, c <> "light-mode" ->
     (c ∈ page_body_classes (fst run) <-> c ∈ page_body_classes page)) /\
  (forall colour : string,
     css_value theme = Ok colour ->
     snd run = None /\
     page_root_style (fst run) = page_root_style page ++ [("--theme-color", colour)]) /\
  (forall colour : string,
     theme = JStr colour ->
     snd run = None /\ last (page_root_style (fst run)) = Some ("--theme-color", colour)) /\
  (forall e : Exn,
     css_value theme = Throw e ->
     snd run = Some cannot_convert /\ page_root_style (fst run) = page_root_style page) /\
  page_storage (fst again) = page_storage (fst run) /\
  page_body_classes (fst again) = page_body_classes (fst run).
Proof.
  intros Hnn run again theme. subst run again theme. unfold settings_effect.
  rewrite (get_prop_ok _ _ Hnn). simpl.
  assert (Hclasses :
            forall dark : bool,
              let classes := if dark
                             then page_body_classes page ∖ {["light-mode"]}
                             else page_body_classes page ∪ {["light-mode"]} in
              ("light-mode" ∈ classes <-> dark = false) /\
              (forall c : string, c <> "light-mode" ->
                 (c ∈ classes <-> c ∈ page_body_classes page)) /\
              (if dark then classes ∖ {["light-mode"]} else classes ∪ {["light-mode"]}) =
              classes).
  { intros [|]; simpl.
    - split; [| split].
      + rewrite elem_of_difference, elem_of_singleton. split; [tauto | discriminate].
      + intros c Hc. rewrite elem_of_difference, elem_of_singleton. tauto.
      + apply set_eq. intros c. rewrite !elem_of_difference. tauto.
    - split; [| split].
      + rewrite elem_of_union, elem_of_singleton. tauto.
      + intros c Hc. rewrite elem_of_union, elem_of_singleton. tauto.
      + apply set_eq. intros c. rewrite !elem_of_union. tauto. }
  destruct (Hclasses (truthy (member settings "isDarkMode"))) as (Hlight & Hother & Hsame).
  destruct (css_value (member settings "themeColor")) as [colour | e] eqn:Hcss; simpl.
  - split; [exact Hlight |]. split; [exact Hother |].
    split; [now intros ? [= <-] |].
    split; [intros c Hc; rewrite Hc in Hcss; injection Hcss as <-;
            split; [reflexivity | apply last_snoc] |].
    split; [discriminate |].
    split; [now rewrite insert_insert_eq | exact Hsame].
  - split; [exact Hlight |]. split; [exact Hother |].
    split; [discriminate |].
    split; [intros c Hc; rewrite Hc in Hcss; discriminate Hcss |].
    split; [intros ? _; now rewrite (css_value_throws _ _ Hcss) |].
    split; [now rewrite insert_insert_eq | exact Hsame].
Qed.

End ThemeProperties.

(** X1 at the default settings and the reference codec. *)
Lemma settings_survive_reload_witness :
  init_settings json_parse
    (page_storage (fst (settings_effect json_stringify DEFAULT_SETTINGS sample_page))) =
  Ok DEFAULT_SETTINGS.
Proof.
  exact (proj1 (settings_survive_reload json_parse json_stringify DEFAULT_SETTINGS sample_page
                  eq_refl ltac:(discriminate))).
Defined.

(** X2 at the data of the sample session. *)
Lemma data_survives_reload_witness :
  init_data json_parse "2025-01-27T03:00:00.000Z"
    (page_storage (data_effect json_stringify (data online_state) sample_page)) =
  Ok (data online_state).
Proof.
  exact (proj1 (data_survives_reload json_parse json_stringify (data online_state) sample_page
                  "2025-01-27T03:00:00.000Z" eq_refl ltac:(discriminate))).
Defined.

(** X3 at the default (dark) settings: no [light-mode] class, and the
    default indigo handed to [setProperty]. *)
Lemma settings_effect_themes_page_witness :
  let run := settings_effect json_stringify DEFAULT_SETTINGS sample_page in
  ("light-mode" ∉ page_body_classes (fst run)) /\
  snd run = None /\
  page_root_style (fst run) = [("--theme-color", "#6366f1")].
Proof.
  intros run.
  pose proof (settings_effect_themes_page json_stringify DEFAULT_SETTINGS sample_page eq_refl)
    as (Hlight & _ & Hcolour & _).
  split.
  - intros Hin. apply Hlight in Hin. discriminate Hin.
  - exact (Hcolour "#6366f1" eq_refl).
Defined.

(** X3 at settings whose theme colour is an object with a property named
    [toString]: the entry and the class are written, then the effect
    throws. *)
Example settings_effect_with_unconvertible_colour :
  let settings := JObj [("isDarkMode", JBool false);
                        ("themeColor", JObj [("toString", JNum 0)])] in
  let run := settings_effect json_stringify settings sample_page in
  snd run = Some cannot_convert /\
  page_storage (fst run) !! "assembly_settings_v2" = Some (json_stringify settings) /\
  page_root_style (fst run) = [].
Proof. repeat split. Qed.


(** ** Settings controls *)

Section SettingsControls.

(** X4.  Each settings control changes one field.  The object handed to
    [setSettings] by a control holds the new value under the control's key
    and every other property of the current settings unchanged.  The dark
    mode control stores the negation of the flag's truthiness: pressed
    twice it restores a boolean flag (and turns any other value into the
    boolean of its truthiness); on settings that are [null] or [undefined]
    it throws. *)
Theorem settings_controls_change_one_field (settings : JsVal) :
  (forall (k : string) (v : JsVal),
      member (update_setting k v settings) k = v /\
      forall k' : string, k <> k' ->
        lookup_prop k' (own_props (update_setting k v settings)) =
        lookup_prop k' (own_props settings)) /\
  (forall once : JsVal,
      toggleDarkMode settings = Ok once ->
      member once "isDarkMode" = JBool (negb (truthy (member settings "isDarkMode"))) /\
      (forall k' : string, k' <> "isDarkMode" ->
         lookup_prop k' (own_props once) = lookup_prop k' (own_props settings)) /\
      exists twice : JsVal,
        toggleDarkMode once = Ok twice /\
        member twice "isDarkMode" = JBool (truthy (member settings "isDarkMode")) /\
        forall k' : string, k' <> "isDarkMode" ->
          lookup_prop k' (own_props twice) = lookup_prop k' (own_props settings)) /\
  (nullish settings = true -> exists e, toggleDarkMode settings = Throw e).
Proof.
  split; [| split].
  - intros k v. split; [apply member_update_setting |].
    intros k' Hne. now apply update_setting_other.
  - intros once Htoggle. unfold toggleDarkMode in Htoggle.
    destruct (get_prop settings "isDarkMode") as [dark | e] eqn:Hget; [| discriminate].
    apply get_prop_inv in Hget as (Hnn & ->). simpl in Htoggle. injection Htoggle as <-.
    split; [apply member_update_setting |].
    split; [intros k' Hne; apply update_setting_other; congruence |].
    eexists. split; [| split].
    + unfold toggleDarkMode. rewrite get_prop_ok by reflexivity. simpl. reflexivity.
    + rewrite !member_update_setting. simpl. rewrite ?lookup_set_prop_eq. simpl.
      now destruct (truthy (member settings "isDarkMode")).
    + intros k' Hne. rewrite !update_setting_other by congruence. reflexivity.
  - intros Hnull. unfold toggleDarkMode, get_prop. rewrite Hnull. simpl. eauto.
Qed.

End SettingsControls.

(** X4 at the default settings: light, then dark again. *)
Lemma settings_controls_change_one_field_witness :
  exists once twice : JsVal,
    toggleDarkMode DEFAULT_SETTINGS = Ok once /\
    member once "isDarkMode" = JBool false /\
    member once "themeColor" = JStr "#6366f1" /\
    toggleDarkMode once = Ok twice /\
    member twice "isDarkMode" = JBool true.
Proof.
  destruct (proj1 (proj2 (settings_controls_change_one_field DEFAULT_SETTINGS))
              _ eq_refl) as (Hflag & _ & twice & Htwice & Hback & _).
  eexists. exists twice. repeat split; try eassumption; reflexivity.
Defined.

(** ** Topic suggestions *)

Section SuggestionProperties.

Variable JSON_parse : string -> Result JsVal.
Variable JSON_stringify : JsVal -> string.

(** X5.  One run of the suggestion refresh.  It never touches the cells of
    [AppState] (the data, the error banner, the loading flags) nor the
    speaking flag.  Offline it does nothing at all.  Online, the
    suggesting flag is set while the call is in flight and false at the
    end; if the call resolved, the list is its result; if anything failed,
    the list is the one from before and the failure is only logged. *)
Theorem suggestions_refresh (fetch : FetchCall -> FetchOutcome) (st : ShellState) :
  let run := fetchSuggestions JSON_parse JSON_stringify fetch st in
  let settled :=
    match suggestion_arguments JSON_stringify (app st) with
    | Ok call => suggestTopics_settle JSON_parse (fetch call)
    | Throw e => Throw e
    end in
  app (fst run) = app st /\
  isSpeaking (fst run) = isSpeaking st /\
  (isOnline (app st) = false -> run = (st, [])) /\
  (isOnline (app st) = true ->
     (forall st1 fx call,
        fetchSuggestions_start JSON_stringify st = (st1, fx, Awaiting call) ->
        isSuggesting st1 = true /\ suggestedTopicsList st1 = suggestedTopicsList st /\
        fx = [Network call]) /\
     isSuggesting (fst run) = false /\
     (forall suggestions,
        settled = Ok suggestions ->
        suggestedTopicsList (fst run) = suggestions /\
        exists call, snd run = [Network call]) /\
     (forall e,
        settled = Throw e ->
        suggestedTopicsList (fst run) = suggestedTopicsList st /\
        last (snd run) = Some (LogError "Failed to fetch suggestions" e))).
Proof.
  intros run settled. subst run settled.
  unfold fetchSuggestions, fetchSuggestions_start.
  destruct (isOnline (app st)) eqn:Hon.
  2: { repeat split; discriminate. }
  destruct (suggestion_arguments JSON_stringify (app st)) as [call | e0] eqn:Hargs.
  - unfold fetchSuggestions_resume.
    destruct (suggestTopics_settle JSON_parse (fetch call)) as [suggestions | e] eqn:Hs; simpl.
    + split; [reflexivity |]. split; [reflexivity |]. split; [discriminate |].
      intros _. split; [| split; [reflexivity | split]].
      * intros st1 fx call0 [= <- <- <-]. now repeat split.
      * intros ? [= <-]. split; [reflexivity | eauto].
      * discriminate.
    + split; [reflexivity |]. split; [reflexivity |]. split; [discriminate |].
      intros _. split; [| split; [reflexivity | split]].
      * intros st1 fx call0 [= <- <- <-]. now repeat split.
      * discriminate.
      * intros ? [= <-]. now split.
  - simpl. split; [reflexivity |]. split; [reflexivity |]. split; [discriminate |].
    intros _. split; [discriminate |]. split; [reflexivity |]. split; [discriminate |].
    intros ? [= <-]. now split.
Qed.

End SuggestionProperties.

(** X5 at a network that answers 500: the list stays, the banner stays
    empty. *)
Lemma suggestions_refresh_witness :
  let run := fetchSuggestions json_parse json_stringify (failed_network reported_failure)
               online_shell in
  isOnline (app online_shell) = true /\
  suggestedTopicsList (fst run) = JArr [] /\
  isSuggesting (fst run) = false /\
  error (app (fst run)) = None.
Proof.
  intros run.
  pose proof (suggestions_refresh json_parse json_stringify
                (failed_network reported_failure) online_shell) as (Happ & _ & _ & Hon).
  destruct (Hon eq_refl) as (_ & Hflag & _ & Hfail).
  split; [reflexivity |]. split; [| split].
  - exact (proj1 (Hfail _ eq_refl)).
  - exact Hflag.
  - fold run in Happ. now rewrite Happ.
Defined.

(** ** Speech *)

Section SpeechProperties.

Lemma find_first {A : Type} (p : A -> bool) (l : list A) (x : A) :
  List.find p l = Some x ->
  exists before after, l = before ++ x :: after /\ p x = true /\
                       Forall (fun y => p y = false) before.
Proof.
  induction l as [|a l IH]; simpl; [discriminate |].
  destruct (p a) eqn:Hp.
  - intros [= <-]. exists [], l. repeat split; [assumption | constructor].
  - intros Hfind. destruct (IH Hfind) as (before & after & -> & Hx & Hbefore).
    exists (a :: before), after. repeat split; [assumption | now constructor].
Qed.

Lemma find_nowhere {A : Type} (p : A -> bool) (l : list A) :
  List.find p l = None -> Forall (fun y => p y = false) l.
Proof.
  induction l as [|a l IH]; simpl; [constructor |].
  destruct (p a) eqn:Hp; [discriminate |]. intros Hfind. constructor; auto.
Qed.

Lemma not_includes_iff (n h : string) : includes n h = false <-> ~ contains n h.
Proof.
  rewrite <- includes_spec. destruct (includes n h); split; congruence.
Qed.

(** X6.  The speak action is a toggle.  While something is being spoken a
    call cancels it and clears the flag, whatever the text and the
    settings.  While nothing is, a call hands exactly one utterance with the
    given text to the synthesizer and sets the flag; a second call from
    there, whatever its text, speaks nothing, cancels, and leaves the state
    as it was before the first; so does the end of the utterance. *)
Theorem speak_is_a_toggle (voices : list Voice) (text text' : string) (st : ShellState) :
  (isSpeaking st = true ->
     handleSpeak voices text st = Ok (setIsSpeaking false st, [SpeechCancel]) /\
     handleSpeak voices text' st = handleSpeak voices text st) /\
  (isSpeaking st = false -> nullish (settings (app st)) = false ->
     exists (st1 : ShellState) (u : Utterance),
       handleSpeak voices text st = Ok (st1, [SpeechSpeak u]) /\
       utterance_text u = text /\
       isSpeaking st1 = true /\ app st1 = app st /\
       handleSpeak voices text' st1 = Ok (st, [SpeechCancel]) /\
       utterance_onend st1 = st).
Proof.
  split.
  - intros Hsp. unfold handleSpeak. rewrite Hsp. now split.
  - intros Hsilent Hnn. unfold handleSpeak at 1. rewrite Hsilent.
    rewrite (get_prop_ok _ _ Hnn). simpl.
    assert (Hback : setIsSpeaking false (setIsSpeaking true st) = st).
    { destruct st as [a sp sg l]. simpl in Hsilent. subst sp. reflexivity. }
    eexists. eexists. split; [reflexivity |].
    split; [now destruct (is_str "Hindi" _) |].
    split; [reflexivity |]. split; [reflexivity |].
    unfold handleSpeak, utterance_onend. simpl. now rewrite Hback.
Qed.

(** X7.  The locale and the voice of an utterance.  The locale is [hi-IN]
    when the settings' language is exactly [Hindi] and [en-US] for every
    other value.  The voice is the first of the available voices whose
    language tag contains [hi] (resp. [en]); when no voice's tag does, the
    utterance is spoken all the same, with no voice set. *)
Theorem speak_chooses_locale_and_voice (voices : list Voice) (text : string)
        (st : ShellState) :
  isSpeaking st = false ->
  nullish (settings (app st)) = false ->
  let hindi := is_str "Hindi" (member (settings (app st)) "language") in
  let tag := if hindi then "hi" else "en" in
  exists u : Utterance,
    handleSpeak voices text st = Ok (setIsSpeaking true st, [SpeechSpeak u]) /\
    utterance_lang u = (if hindi then "hi-IN" else "en-US") /\
    match utterance_voice u with
    | Some v =>
        exists before after,
          voices = before ++ v :: after /\
          contains tag (voice_lang v) /\
          Forall (fun w => ~ contains tag (voice_lang w)) before
    | None => Forall (fun w => ~ contains tag (voice_lang w)) voices
    end.
Proof.
  intros Hsilent Hnn hindi tag. subst hindi tag.
  unfold handleSpeak. rewrite Hsilent, (get_prop_ok _ _ Hnn). simpl.
  assert (Hpick : forall tag,
            match pick_voice tag voices with
            | Some v =>
                exists before after,
                  voices = before ++ v :: after /\
                  contains tag (voice_lang v) /\
                  Forall (fun w => ~ contains tag (voice_lang w)) before
            | None => Forall (fun w => ~ contains tag (voice_lang w)) voices
            end).
  { intros tag. unfold pick_voice.
    destruct (List.find _ voices) as [v |] eqn:Hfind.
    - apply find_first in Hfind as (before & after & -> & Hv & Hbefore).
      exists before, after. split; [reflexivity |]. split; [now apply includes_spec |].
      eapply Forall_impl; [exact Hbefore |]. intros w Hw. now apply not_includes_iff.
    - apply find_nowhere in Hfind.
      eapply Forall_impl; [exact Hfind |]. intros w Hw. now apply not_includes_iff. }
  destruct (is_str "Hindi" (member (settings (app st)) "language")).
  - eexists. split; [reflexivity |]. split; [reflexivity |]. apply (Hpick "hi").
  - eexists. split; [reflexivity |]. split; [reflexivity |]. apply (Hpick "en").
Qed.

End SpeechProperties.

(** X6 at the sample session: speak, then speak again. *)
Lemma speak_is_a_toggle_witness :
  exists (st1 : ShellState) (u : Utterance),
    handleSpeak sample_voices "Serene. Meaning: calm" online_shell = Ok (st1, [SpeechSpeak u]) /\
    utterance_text u = "Serene. Meaning: calm" /\
    handleSpeak sample_voices "Another text" st1 = Ok (online_shell, [SpeechCancel]).
Proof.
  destruct (proj2 (speak_is_a_toggle sample_voices "Serene. Meaning: calm" "Another text"
                     online_shell) eq_refl eq_refl)
    as (st1 & u & Hspeak & Htext & _ & _ & Hagain & _).
  exists st1, u. now repeat split.
Defined.

(** X7 at a Hindi session with an English voice listed first: the locale
    is [hi-IN]. *)
Lemma speak_chooses_locale_and_voice_witness :
  exists u : Utterance,
    handleSpeak sample_voices "Namaste" hindi_shell =
      Ok (setIsSpeaking true hindi_shell, [SpeechSpeak u]) /\
    utterance_lang u = "hi-IN".
Proof.
  destruct (speak_chooses_locale_and_voice sample_voices "Namaste" hindi_shell
              eq_refl eq_refl) as (u & Hspeak & Hlang & _).
  exists u. split; [exact Hspeak | exact Hlang].
Defined.


(** ** Generating a section: banner, effects, overlap *)

Section GenerationProperties.

Variable JSON_parse : string -> Result JsVal.
Variable JSON_stringify : JsVal -> string.

Lemma call_arguments_inv (section : SectionName) (st : AppState) (call : FetchCall) :
  call_arguments JSON_stringify section st = Ok call ->
  nullish (settings st) = false /\
  nullish (data st) = false /\
  call = generateSection_call JSON_stringify
           (JStr (section_key section)) (JStr (selectedDate st))
           (member (settings st) "difficulty") (member (settings st) "language")
           (request_options st (member (data st) (section_key section))).
Proof.
  unfold call_arguments, get_prop.
  destruct (nullish (settings st)); [discriminate |].
  destruct (nullish (data st)); [discriminate |]. simpl.
  intros [= <-]. now repeat split.
Qed.

Lemma section_key_inj (s1 s2 : SectionName) : section_key s1 = section_key s2 -> s1 = s2.
Proof. destruct s1, s2; simpl; intros H; try reflexivity; discriminate H. Qed.

(** X8.  The banner after a generation.  In a run that passes the
    connectivity guard the error cell ends empty when the call resolved, and
    as "Failed to generate <section>. Please try again." when anything
    failed: the text depends on the section alone, never on the exception
    (the Proxy's message is not shown). *)
Theorem generation_banner (fetch : FetchCall -> FetchOutcome) (now : string)
        (section : SectionName) (st : AppState) :
  isOnline st = true ->
  let st' := fst (handleGenerateSection JSON_parse JSON_stringify fetch now section st) in
  (forall result,
      attempt JSON_parse JSON_stringify fetch section st = Ok result -> error st' = None) /\
  (forall e,
      attempt JSON_parse JSON_stringify fetch section st = Throw e ->
      error st' =
        Some ("Failed to generate " +:+ section_key section +:+ ". Please try again.")).
Proof.
  intros Hon st'. subst st'.
  unfold handleGenerateSection, handleGenerateSection_start, attempt. rewrite Hon. simpl.
  destruct (call_arguments JSON_stringify section st) as [call | e0] eqn:Hargs; simpl.
  - apply call_arguments_inv in Hargs as (Hset & _ & _).
    unfold handleGenerateSection_resume. rewrite (get_prop_ok _ _ Hset).
    destruct (generateSection_settle JSON_parse (fetch call)) as [result | e]; simpl.
    + split; [reflexivity | discriminate].
    + split; [discriminate | reflexivity].
  - split; [discriminate | reflexivity].
Qed.

(** X9.  What a generation does besides updating state.  In a run that
    passes the connectivity guard: when an argument of the call cannot be
    read, the exception is logged and there is no network call; otherwise
    there is exactly one network call, followed by one confetti burst of 40
    particles and spread 50 in the theme colour and white when the call
    resolved, or by the logged exception when it failed.  There is no
    second call. *)
Theorem generation_effects (fetch : FetchCall -> FetchOutcome) (now : string)
        (section : SectionName) (st : AppState) :
  isOnline st = true ->
  snd (handleGenerateSection JSON_parse JSON_stringify fetch now section st) =
  match call_arguments JSON_stringify section st with
  | Throw e => [ConsoleError e]
  | Ok call =>
      match generateSection_settle JSON_parse (fetch call) with
      | Ok result =>
          [Fetch call; Confetti 40 50 [member (settings st) "themeColor"; JStr "#ffffff"]]
      | Throw e => [Fetch call; ConsoleError e]
      end
  end.
Proof.
  intros Hon.
  unfold handleGenerateSection, handleGenerateSection_start. rewrite Hon. simpl.
  destruct (call_arguments JSON_stringify section st) as [call | e0] eqn:Hargs; simpl.
  - apply call_arguments_inv in Hargs as (Hset & _ & _).
    unfold handleGenerateSection_resume. rewrite (get_prop_ok _ _ Hset).
    now destruct (generateSection_settle JSON_parse (fetch call)).
  - reflexivity.
Qed.

(** X10.  Overlapping requests.  When two calls resolve one after the
    other, each continuation working on the state it finds: the later one
    decides its section's field and the timestamp; if the sections differ,
    the earlier result is still in place; and the first completion clears
    its section's flag at once, also when the second call is for the same
    section and still in flight. *)
Theorem overlapping_requests (s1 s2 : SectionName) (c1 c2 : AppState)
        (o1 o2 : FetchOutcome) (now1 now2 : string) (st : AppState) (r1 r2 : JsVal) :
  generateSection_settle JSON_parse o1 = Ok r1 ->
  generateSection_settle JSON_parse o2 = Ok r2 ->
  let after1 := fst (handleGenerateSection_resume JSON_parse s1 c1 o1 now1 st) in
  let after2 := fst (handleGenerateSection_resume JSON_parse s2 c2 o2 now2 after1) in
  loadingSections after1 !! section_key s1 = Some false /\
  member (data after2) (section_key s2) = r2 /\
  member (data after2) "timestamp" = JStr now2 /\
  (s1 <> s2 -> member (data after2) (section_key s1) = r1).
Proof.
  intros H1 H2 after1 after2.
  pose proof (resume_frame JSON_parse s1 c1 o1 now1 st) as (Hclr1 & _ & Hok1 & _).
  pose proof (resume_frame JSON_parse s2 c2 o2 now2 after1) as (_ & _ & Hok2 & _).
  fold after1 in Hclr1, Hok1. fold after2 in Hok2.
  specialize (Hok1 r1 H1). specialize (Hok2 r2 H2).
  clearbody after1 after2.
  split; [exact Hclr1 |].
  pose proof (merged_data (section_key s2) now2 r2 (data after1)
                (section_key_not_timestamp s2)) as (Hf & Hts & Hother).
  rewrite Hok2. split; [exact Hf |]. split; [exact Hts |].
  intros Hne.
  assert (Hk : section_key s1 <> section_key s2)
    by (intros Hk; apply Hne; now apply section_key_inj).
  pose proof (Hother (section_key s1) Hk (section_key_not_timestamp s1)) as Hkeep.
  pose proof (merged_data (section_key s1) now1 r1 (data st)
                (section_key_not_timestamp s1)) as (Hf1 & _ & _).
  rewrite Hok1 in Hkeep |- *. simpl in Hkeep, Hf1 |- *.
  now rewrite Hkeep.
Qed.

(** X11.  From generation to export.  After a [special_item] call has
    resolved to a falsy result, [downloadAsText] produces no file.  After
    it has resolved to a truthy result, the content of the file is the
    result's [content] converted to a string.  When that conversion
    succeeds there is exactly one plain-text file, named
    [Special_Segment_<selected date>.txt], holding the converted text: the
    text itself for a string, and the word "undefined" for a result with no
    [content].  When the content cannot be converted (an object with an own
    [toString] property) the export throws the TypeError and produces no
    file. *)
Theorem generated_segment_is_downloaded (captured : AppState) (o : FetchOutcome)
        (now : string) (st : AppState) (result : JsVal) :
  generateSection_settle JSON_parse o = Ok result ->
  let st' := fst (handleGenerateSection_resume JSON_parse special_item captured o now st) in
  let content := member result "content" in
  let file (text : string) :=
    Download ("Special_Segment_" +:+ selectedDate st +:+ ".txt") "text/plain" text in
  (truthy result = false -> downloadAsText st' = Ok []) /\
  (truthy result = true ->
     (forall text : string, ToString content = Ok text -> downloadAsText st' = Ok [file text]) /\
     (forall text : string, content = JStr text -> downloadAsText st' = Ok [file text]) /\
     (content = JUndefined -> downloadAsText st' = Ok [file "undefined"]) /\
     (converts content = false -> downloadAsText st' = Throw cannot_convert)).
Proof.
  intros Hr st' content file.
  pose proof (resume_frame JSON_parse special_item captured o now st) as (_ & _ & Hok & _).
  fold st' in Hok. specialize (Hok result Hr). cbn [section_key] in Hok.
  assert (Hdate : selectedDate st' = selectedDate st).
  { subst st'. unfold handleGenerateSection_resume. rewrite Hr.
    now destruct (get_prop (settings captured) "themeColor"). }
  assert (Hrun : downloadAsText st' =
                 if truthy result
                 then let* text := ToString content in Ok [file text]
                 else Ok []).
  { unfold downloadAsText. rewrite Hdate, Hok.
    rewrite get_prop_ok by reflexivity.
    pose proof (merged_data "special_item" now result (data st) ltac:(discriminate))
      as (Hf & _ & _).
    rewrite Hf. simpl. now destruct (truthy result). }
  rewrite Hrun. clear Hrun. split; intros ->; [reflexivity |].
  split; [| split; [| split]].
  - now intros text ->.
  - now intros text ->.
  - now intros ->.
  - intros Hno. apply converts_false in Hno. now rewrite Hno.
Qed.

End GenerationProperties.

(** X8 at a network failure. *)
Lemma generation_banner_witness :
  error (fst (handleGenerateSection json_parse json_stringify
                (failed_network reported_failure) "2025-01-26T04:00:00.000Z"
                news online_state)) =
  Some "Failed to generate news. Please try again.".
Proof.
  exact (proj2 (generation_banner json_parse json_stringify
                  (failed_network reported_failure) "2025-01-26T04:00:00.000Z"
                  news online_state eq_refl)
               _ eq_refl).
Defined.

(** X9 at a resolved call: one request, one burst. *)
Lemma generation_effects_witness :
  exists call : FetchCall,
    snd (handleGenerateSection json_parse json_stringify (ok_network "{}")
           "2025-01-26T04:00:00.000Z" word online_state) =
    [Fetch call; Confetti 40 50 [JStr "#6366f1"; JStr "#ffffff"]].
Proof.
  eexists.
  exact (generation_effects json_parse json_stringify (ok_network "{}")
           "2025-01-26T04:00:00.000Z" word online_state eq_refl).
Defined.

(** X10 at a word and a thought resolving one after the other. *)
Lemma overlapping_requests_witness :
  let after1 := fst (handleGenerateSection_resume json_parse word online_state
                       (FetchResponse true "{}") "2025-01-26T04:00:00.000Z" online_state) in
  let after2 := fst (handleGenerateSection_resume json_parse thought online_state
                       (FetchResponse true "[]") "2025-01-26T04:00:01.000Z" after1) in
  member (data after2) "word" = JObj [] /\ member (data after2) "thought" = JArr [].
Proof.
  intros after1 after2.
  destruct (overlapping_requests json_parse word thought online_state online_state
              (FetchResponse true "{}") (FetchResponse true "[]")
              "2025-01-26T04:00:00.000Z" "2025-01-26T04:00:01.000Z" online_state
              (JObj []) (JArr []) eq_refl eq_refl) as (_ & H2 & _ & H1).
  split; [apply H1; discriminate | exact H2].
Defined.

(** X11 at a segment generated from an empty model answer: the file holds
    the word "undefined". *)
Lemma generated_segment_is_downloaded_witness :
  downloadAsText (fst (handleGenerateSection_resume json_parse special_item online_state
                         (FetchResponse true "{}") "2025-01-26T04:00:00.000Z" online_state)) =
  Ok [Download "Special_Segment_2025-01-26.txt" "text/plain" "undefined"].
Proof.
  exact (proj1 (proj2 (proj2 (proj2 (generated_segment_is_downloaded json_parse online_state
                                       (FetchResponse true "{}") "2025-01-26T04:00:00.000Z"
                                       online_state (JObj []) eq_refl)
                                    eq_refl)))
               eq_refl).
Defined.

(** X11 at a segment whose content is an object with a property named
    [toString]: the export throws and there is no file. *)
Example unconvertible_segment_is_not_downloaded :
  let answer := json_stringify (JObj [("type", JStr "Speech");
                                      ("content", JObj [("toString", JNum 0)])]) in
  downloadAsText (fst (handleGenerateSection_resume json_parse special_item online_state
                         (FetchResponse true answer) "2025-01-26T04:00:00.000Z"
                         online_state)) =
  Throw cannot_convert.
Proof. reflexivity. Qed.


(** ** From the segment controls to the prompt *)

Section SelectionProperties.

Variable JSON_stringify : JsVal -> string.

Lemma append_not_empty (a b : string) : a <> EmptyString -> a +:+ b <> EmptyString.
Proof. destruct a; [contradiction | discriminate]. Qed.

(** X12.  The segment controls reach the prompt.  For the options object
    the shell puts in a [special_item] request, the Proxy selects the
    special-item schema and an instruction that names the selected type,
    asks for the long text exactly when Long is selected, and carries the
    topic clause exactly when the topic field is not empty; the repetition
    guard is empty exactly when the section's current value is falsy. *)
Theorem segment_selections_reach_prompt (st : AppState) (previous : JsVal) :
  let options := request_options st previous in
  section_dispatch (JStr "special_item") options =
    (Some SPECIAL_ITEM_SCHEMA,
     Ok ("Generate a special assembly segment of type " +:+ dquote +:+
         special_type_name (specialType st) +:+ dquote +:+ " " +:+
         (if String.eqb (customTopic st) EmptyString then EmptyString
          else "on the topic: " +:+ dquote +:+ customTopic st +:+ dquote) +:+
         ". The content should be " +:+
         match contentLength st with
         | Long => "detailed and long (about 250 words)"
         | Short => "concise and short (about 100 words)"
         end +:+
         ". If it's a quiz, include the answer.")) /\
  (avoidRepetitionPrompt JSON_stringify options = EmptyString <-> truthy previous = false).
Proof.
  intros options. subst options. split.
  - unfold section_dispatch, request_options, opt_chain, member. simpl.
    destruct (specialType st), (contentLength st); simpl;
      now destruct (String.eqb (customTopic st) EmptyString).
  - unfold avoidRepetitionPrompt, request_options, opt_chain, member. simpl.
    destruct (truthy previous).
    + split; [| discriminate]. intros H. exfalso. revert H.
      apply append_not_empty. discriminate.
    + now split.
Qed.

End SelectionProperties.

(** ** Cards and loading flags *)

Section CardProperties.

Variable JSON_parse : string -> Result JsVal.
Variable JSON_stringify : JsVal -> string.

Lemma bind_ok {A B : Type} (r : Result A) (k : A -> Result B) (b : B) :
  bind r k = Ok b -> exists a, r = Ok a /\ k a = Ok b.
Proof. destruct r as [a | e]; simpl; [eauto | discriminate]. Qed.

Lemma index_is_no_section_key (i : nat) (s : SectionName) : nat_to_string i <> section_key s.
Proof. unfold nat_to_string. destruct (Nat.to_uint i), s; discriminate. Qed.

Lemma lookup_prop_imap (k : string) (g : nat -> string) (xs : list JsVal) :
  (forall i, g i <> k) -> lookup_prop k (imap (fun i x => (g i, x)) xs) = None.
Proof.
  revert g. induction xs as [|x xs IH]; intros g Hg; simpl; [reflexivity |].
  destruct (String.eqb_spec (g 0%nat) k) as [Heq | _]; [now destruct (Hg 0%nat) |].
  apply (IH (fun i => g (S i))). intros i. apply Hg.
Qed.

Lemma lookup_prop_chars_from (k : string) (i : nat) (s : string) :
  (forall j, nat_to_string j <> k) -> lookup_prop k (chars_from i s) = None.
Proof.
  intros Hk. revert i. induction s as [|c s IH]; intros i; simpl; [reflexivity |].
  destruct (String.eqb_spec (nat_to_string i) k) as [Heq | _]; [now destruct (Hk i) |].
  apply IH.
Qed.

(** What an object spread copies of a value has, under a section's name,
    what the value itself has. *)
Lemma own_props_section_key (s : SectionName) (v : JsVal) :
  default JUndefined (lookup_prop (section_key s) (own_props v)) = member v (section_key s).
Proof.
  destruct v as [| | b | n | t | xs | props]; simpl; try reflexivity.
  - rewrite lookup_prop_chars_from; [reflexivity |].
    intros j. apply index_is_no_section_key.
  - rewrite lookup_prop_imap; [reflexivity |].
    intros j. apply index_is_no_section_key.
Qed.

(** The children of a section's card depend on the data through the
    section's field alone. *)
Lemma card_children_reads_its_field (s : SectionName) (d d' : JsVal) :
  nullish d = false -> nullish d' = false ->
  member d (section_key s) = member d' (section_key s) ->
  card_children s d = card_children s d'.
Proof.
  intros Hd Hd' Hfield.
  destruct s; unfold card_children, record_children, news_card_body;
    rewrite !get_prop_ok by assumption; simpl in Hfield |- *; now rewrite Hfield.
Qed.

(** The card of a section in a tree that [App] returned: what [GlassCard]
    makes of the section's attributes, and the children built from the
    data. *)
Lemma rendered_card (st : ShellState) (screen : Screen) (s : SectionName) :
  App_render st = Ok screen ->
  fst (cards screen s) = GlassCard (card_props s (app st)) /\
  card_children s (data (app st)) = Ok (snd (cards screen s)).
Proof.
  unfold App_render. intros H.
  repeat (apply bind_ok in H as (? & ? & H)).
  injection H as <-. destruct s; simpl; now split.
Qed.

(** Whether [App] returns a tree depends on the settings, the data and the
    suggestions, not on the loading flags, the banner or the connectivity. *)
Lemma render_succeeds_alike (st st' : ShellState) :
  settings (app st') = settings (app st) ->
  data (app st') = data (app st) ->
  isSuggesting st' = isSuggesting st ->
  suggestedTopicsList st' = suggestedTopicsList st ->
  (exists screen', App_render st' = Ok screen') ->
  exists screen, App_render st = Ok screen.
Proof.
  unfold App_render, suggestion_chips. intros -> -> -> -> (screen' & H).
  repeat (apply bind_ok in H as (? & -> & H); cbn [bind]). eauto.
Qed.

(** X13.  A card follows its section's request, in the trees [App]
    returns.  Once a generation has issued its network call, [App] returns
    a tree exactly if it did before the call, and in it the section's card
    has a set loading flag: it shows the skeleton and both its controls are
    disabled, so the section cannot be triggered again from its card; its
    children are those of before, built though not shown.  When the run is
    over, in the tree [App] returns the section's card has its controls
    enabled and shows its children, which after a resolved call are built
    from the result alone.  Building them can throw: after a [thought] call
    resolved to a thought without an author, [App] returns no tree.  In all
    these trees the cards of the other sections are the same as before. *)
Theorem card_follows_request (fetch : FetchCall -> FetchOutcome) (now : string)
        (section other : SectionName) (shell : ShellState) (call : FetchCall) :
  let st := app shell in
  isOnline st = true ->
  call_arguments JSON_stringify section st = Ok call ->
  let shell_with (a : AppState) :=
    mkShell a (isSpeaking shell) (isSuggesting shell) (suggestedTopicsList shell) in
  let in_flight :=
    shell_with (fst (fst (handleGenerateSection_start JSON_stringify section st))) in
  let done :=
    shell_with (fst (handleGenerateSection JSON_parse JSON_stringify fetch now section st)) in
  ((exists screen, App_render in_flight = Ok screen) <->
   (exists before, App_render shell = Ok before)) /\
  (forall screen before : Screen,
     App_render in_flight = Ok screen -> App_render shell = Ok before ->
     let busy := fst (cards screen section) in
     regenerate_control busy = Some true /\ speak_control busy = Some true /\
     shown busy = Skeleton /\
     snd (cards screen section) = snd (cards before section) /\
     (other <> section -> cards screen other = cards before other)) /\
  (forall screen : Screen,
     App_render done = Ok screen ->
     let idle := fst (cards screen section) in
     regenerate_control idle = Some false /\ speak_control idle = Some false /\
     shown idle = Children /\
     (forall result : JsVal,
        generateSection_settle JSON_parse (fetch call) = Ok result ->
        card_children section (JObj [(section_key section, result)]) =
        Ok (snd (cards screen section))) /\
     (forall before : Screen,
        App_render shell = Ok before ->
        (other <> section -> cards screen other = cards before other) /\
        (forall e : Exn,
           generateSection_settle JSON_parse (fetch call) = Throw e ->
           snd (cards screen section) = snd (cards before section)))) /\
  (forall result : JsVal,
     section = thought ->
     generateSection_settle JSON_parse (fetch call) = Ok result ->
     truthy result = true -> nullish (member result "author") = true ->
     exists e : Exn, App_render done = Throw e).
Proof.
  intros st Hon Hargs at_ in_flight done.
  pose proof (call_arguments_inv JSON_stringify section st call Hargs) as (_ & Hdata & _).
  set (mid := setError None
                (setLoadingSections (fun prev => <[section_key section:=true]> prev) st)).
  assert (Hflight : in_flight = at_ mid).
  { subst in_flight mid. unfold handleGenerateSection_start. now rewrite Hon, Hargs. }
  set (final := fst (handleGenerateSection_resume JSON_parse section st (fetch call) now mid)).
  assert (Hdone : done = at_ final).
  { subst done final. unfold handleGenerateSection, handleGenerateSection_start.
    rewrite Hon, Hargs. simpl. fold mid.
    now destruct (handleGenerateSection_resume JSON_parse section st (fetch call) now mid). }
  pose proof (resume_frame JSON_parse section st (fetch call) now mid)
    as (Hclr & Hoth & Hok & Hko).
  fold final in Hclr, Hoth, Hok, Hko.
  change (data mid) with (data st) in Hok, Hko.
  assert (Hsettings : settings final = settings st).
  { subst final. unfold handleGenerateSection_resume.
    destruct (generateSection_settle JSON_parse (fetch call));
      [destruct (get_prop (settings st) "themeColor") |]; reflexivity. }
  assert (Hchildren : forall s, s <> section ->
            card_children s (data final) = card_children s (data st)).
  { intros s Hs.
    assert (Hk : section_key s <> section_key section)
      by (intros Hk; apply Hs; now apply section_key_inj).
    destruct (generateSection_settle JSON_parse (fetch call)) as [result | e] eqn:Hsettle.
    - rewrite (Hok result eq_refl).
      apply card_children_reads_its_field; [reflexivity | assumption |].
      pose proof (merged_data (section_key section) now result (data st)
                    (section_key_not_timestamp section)) as (_ & _ & Hkeep).
      rewrite <- (own_props_section_key s (data st)). simpl in Hkeep |- *.
      now rewrite (Hkeep (section_key s) Hk (section_key_not_timestamp s)).
    - now rewrite (Hko e eq_refl). }
  assert (Hresult : forall result,
            generateSection_settle JSON_parse (fetch call) = Ok result ->
            card_children section (data final) =
            card_children section (JObj [(section_key section, result)])).
  { intros result Hr. rewrite (Hok result Hr).
    pose proof (merged_data (section_key section) now result (data st)
                  (section_key_not_timestamp section)) as (Hf & _ & _).
    apply card_children_reads_its_field; [reflexivity | reflexivity |].
    rewrite Hf. simpl. now rewrite String.eqb_refl. }
  assert (Hviews : forall s, s <> section ->
            GlassCard (card_props s mid) = GlassCard (card_props s st) /\
            GlassCard (card_props s final) = GlassCard (card_props s st)).
  { intros s Hs.
    assert (Hk : section_key s <> section_key section)
      by (intros Hk; apply Hs; now apply section_key_inj).
    unfold card_props. rewrite (Hoth _ Hk). subst mid. simpl.
    rewrite lookup_insert_ne by congruence. now split. }
  assert (Hcard : forall (state : ShellState) (screen : Screen) (s : SectionName),
            App_render state = Ok screen ->
            cards screen s = (GlassCard (card_props s (app state)), snd (cards screen s))).
  { intros state screen s H. destruct (rendered_card state screen s H) as (Hv & _).
    rewrite <- Hv. now destruct (cards screen s). }
  clearbody final. rewrite Hflight, Hdone. clear Hflight Hdone in_flight done.
  split; [| split; [| split]].
  - split; intros Hsome.
    + now apply (render_succeeds_alike shell (at_ mid)).
    + apply (render_succeeds_alike (at_ mid) shell); try reflexivity. exact Hsome.
  - intros screen before Hscreen Hbefore busy. subst busy.
    destruct (rendered_card _ _ section Hscreen) as (Hview & Hkids).
    destruct (rendered_card _ _ section Hbefore) as (_ & Hkids').
    rewrite Hview. unfold GlassCard, card_props. simpl.
    rewrite lookup_insert_eq. simpl. split; [reflexivity |]. split; [reflexivity |].
    split; [reflexivity |]. simpl in Hkids. fold st in Hkids'.
    split; [congruence |].
    intros Hne. rewrite (Hcard _ _ other Hscreen), (Hcard _ _ other Hbefore). simpl.
    destruct (rendered_card _ _ other Hscreen) as (_ & Hother).
    destruct (rendered_card _ _ other Hbefore) as (_ & Hother').
    simpl in Hother. fold st in Hother'. fold st.
    rewrite (proj1 (Hviews other Hne)). f_equal. congruence.
  - intros screen Hscreen idle. subst idle.
    destruct (rendered_card _ _ section Hscreen) as (Hview & Hkids).
    rewrite Hview. unfold GlassCard, card_props. simpl. rewrite Hclr. simpl.
    split; [reflexivity |]. split; [reflexivity |]. split; [reflexivity |].
    simpl in Hkids. split.
    + intros result Hr. now rewrite <- (Hresult result Hr).
    + intros before Hbefore.
      destruct (rendered_card _ _ section Hbefore) as (_ & Hkids'). fold st in Hkids'.
      split.
      * intros Hne. rewrite (Hcard _ _ other Hscreen), (Hcard _ _ other Hbefore). simpl.
        destruct (rendered_card _ _ other Hscreen) as (_ & Hother).
        destruct (rendered_card _ _ other Hbefore) as (_ & Hother').
        simpl in Hother. fold st in Hother'. fold st.
        rewrite (proj2 (Hviews other Hne)). f_equal.
        rewrite (Hchildren other Hne) in Hother. congruence.
      * intros e He. rewrite (Hko e He) in Hkids. congruence.
  - intros result -> Hr Htruthy Hauthor.
    destruct (App_render (at_ final)) as [screen | e] eqn:Hrender; [| eauto].
    destruct (rendered_card _ _ thought Hrender) as (_ & Hkids).
    change (data (app (at_ final))) with (data final) in Hkids.
    rewrite (Hresult result Hr) in Hkids.
    unfold card_children, record_children in Hkids.
    rewrite get_prop_ok in Hkids by reflexivity. simpl in Hkids.
    rewrite Htruthy in Hkids. simpl in Hkids.
    destruct (member result "author"); discriminate.
Qed.

End CardProperties.

(** X12 at the sample session with no topic and nothing generated yet. *)
Lemma segment_selections_reach_prompt_witness :
  avoidRepetitionPrompt json_stringify (request_options online_state JUndefined) = EmptyString.
Proof.
  exact (proj2 (proj2 (segment_selections_reach_prompt json_stringify online_state JUndefined))
               eq_refl).
Defined.

(** X13 at the sample session generating [word]: the word's card is busy
    while the call is in flight, and the thought's card is as before when
    the run is over. *)
Lemma card_follows_request_witness :
  let in_flight :=
    mkShell (fst (fst (handleGenerateSection_start json_stringify word online_state)))
            false false (JArr []) in
  let done :=
    mkShell (fst (handleGenerateSection json_parse json_stringify (ok_network "{}")
                    "2025-01-26T04:00:00.000Z" word online_state))
            false false (JArr []) in
  exists busy idle before : Screen,
    App_render in_flight = Ok busy /\ App_render done = Ok idle /\
    App_render online_shell = Ok before /\
    regenerate_control (fst (cards busy word)) = Some true /\
    regenerate_control (fst (cards idle word)) = Some false /\
    cards idle thought = cards before thought.
Proof.
  intros in_flight done.
  destruct (card_follows_request json_parse json_stringify (ok_network "{}")
              "2025-01-26T04:00:00.000Z" word thought online_shell _ eq_refl eq_refl)
    as (_ & Hbusy & Hidle & _).
  eexists. eexists. eexists.
  split; [reflexivity |]. split; [reflexivity |]. split; [reflexivity |].
  split; [exact (proj1 (Hbusy _ _ eq_refl eq_refl)) |].
  destruct (Hidle _ eq_refl) as (Hcontrol & _ & _ & _ & Hothers).
  split; [exact Hcontrol |].
  exact (proj1 (Hothers _ eq_refl) ltac:(discriminate)).
Defined.

(** X13 after a [thought] call answered with the empty object: [App]
    throws where it indexes the author, and returns no tree. *)
Example thought_card_needs_an_author :
  App_render
    (mkShell (fst (handleGenerateSection json_parse json_stringify (ok_network "{}")
                     "2025-01-26T04:00:00.000Z" thought online_state))
             false false (JArr [])) =
  Throw (read_of_nullish JUndefined "0").
Proof. reflexivity. Qed.

(** ** The news card *)

Section NewsProperties.

Variable JSON_parse : string -> Result JsVal.

Lemma filter_by_category_ok (cat : string) (items : list JsVal) :
  Forall (fun n => nullish n = false) items ->
  filter_by_category cat items =
  Ok (List.filter (fun n => is_str cat (member n "category")) items).
Proof.
  induction 1 as [|n items Hn _ IH]; [reflexivity |].
  simpl. rewrite (get_prop_ok _ _ Hn), IH. simpl.
  now destruct (is_str cat (member n "category")).
Qed.

Lemma filter_by_category_stops (cat : string) (before after : list JsVal) (n : JsVal) :
  Forall (fun m => nullish m = false) before ->
  nullish n = true ->
  filter_by_category cat (before ++ n :: after) = Throw (read_of_nullish n "category").
Proof.
  intros Hbefore Hn. induction Hbefore as [|m before Hm _ IH]; simpl.
  - unfold get_prop. now rewrite Hn.
  - now rewrite (get_prop_ok _ _ Hm), IH.
Qed.

(** X14.  The three columns partition the recognised news.  For an array
    of items none of which is [null], the news card has the columns
    International, National and Sports, in that order; each holds, in the
    order of the array, the title and summary of the items whose [category]
    is exactly the column's name; an item of any other category is in no
    column, so the columns together hold as many entries as there are items
    of the three categories. *)
Theorem news_columns_partition (items : list JsVal) :
  Forall (fun n => nullish n = false) items ->
  let column (cat : string) (items : list JsVal) :=
    List.map (fun item => (member item "title", member item "summary"))
             (List.filter (fun n => is_str cat (member n "category")) items) in
  news_columns_of NEWS_CATEGORIES items =
    Ok [("International", column "International" items);
        ("National", column "National" items);
        ("Sports", column "Sports" items)] /\
  (length (column "International" items) + length (column "National" items) +
   length (column "Sports" items) =
   length (List.filter
             (fun n => existsb (fun cat => is_str cat (member n "category")) NEWS_CATEGORIES)
             items))%nat.
Proof.
  intros Hitems column. split.
  - unfold NEWS_CATEGORIES, news_columns_of.
    rewrite !(filter_by_category_ok _ _ Hitems). reflexivity.
  - subst column. cbv beta. rewrite !length_map. clear Hitems.
    unfold NEWS_CATEGORIES.
    induction items as [|n items IH]; [reflexivity |].
    simpl in IH |- *.
    destruct (member n "category") as [| | | | s | |]; simpl; try exact IH.
    destruct (String.eqb_spec s "International") as [-> | H1]; simpl; [lia |].
    destruct (String.eqb_spec s "National") as [-> | H2]; simpl; [lia |].
    destruct (String.eqb_spec s "Sports") as [-> | H3]; simpl; lia.
Qed.

(** X15.  The news card needs an array.  On data that is neither [null]
    nor [undefined]: a falsy [news] gives the placeholder; a truthy [news]
    that is not an array (an object, such as the empty object the Proxy
    answers on an empty model text, a string, a number) makes rendering
    throw a TypeError, and so does an array at its first [null] item.  In
    particular rendering throws after a [news] call has resolved to a
    truthy value that is not an array. *)
Theorem news_card_needs_an_array (data : JsVal) :
  nullish data = false ->
  let news := member data "news" in
  (truthy news = false -> news_card_body data = Ok None) /\
  (truthy news = true -> (forall items, news <> JArr items) ->
     news_card_body data = Throw filter_is_not_a_function) /\
  (forall before n after,
     news = JArr (before ++ n :: after) ->
     Forall (fun m => nullish m = false) before -> nullish n = true ->
     news_card_body data = Throw (read_of_nullish n "category")) /\
  (forall captured o now st result,
     generateSection_settle JSON_parse o = Ok result ->
     truthy result = true -> (forall items, result <> JArr items) ->
     news_card_body
       (App.data (fst (handleGenerateSection_resume JSON_parse App.news captured o now st))) =
     Throw filter_is_not_a_function).
Proof.
  intros Hnn news. subst news.
  assert (Hnot : forall d, nullish d = false -> truthy (member d "news") = true ->
                   (forall items, member d "news" <> JArr items) ->
                   news_card_body d = Throw filter_is_not_a_function).
  { intros d Hd Ht Hna. unfold news_card_body. rewrite (get_prop_ok _ _ Hd). simpl.
    rewrite Ht. destruct (member d "news") as [| | | | | items |]; try reflexivity.
    now destruct (Hna items). }
  split; [| split; [| split]].
  - intros Hf. unfold news_card_body. rewrite (get_prop_ok _ _ Hnn). simpl. now rewrite Hf.
  - now apply Hnot.
  - intros before n after Hnews Hbefore Hn.
    unfold news_card_body. rewrite (get_prop_ok _ _ Hnn). simpl. rewrite Hnews. simpl.
    now rewrite (filter_by_category_stops _ _ _ _ Hbefore Hn).
  - intros captured o now st result Hr Ht Hna.
    pose proof (resume_frame JSON_parse App.news captured o now st) as (_ & _ & Hok & _).
    specialize (Hok result Hr). cbn [section_key] in Hok.
    pose proof (merged_data "news" now result (App.data st) ltac:(discriminate))
      as (Hf & _ & _).
    apply Hnot; rewrite Hok; [reflexivity | now rewrite Hf | now rewrite Hf].
Qed.

End NewsProperties.

(** X14 at two items, one of them of an unknown category. *)
Lemma news_columns_partition_witness :
  let items := [JObj [("title", JStr "Cup final"); ("summary", JStr "A draw");
                      ("category", JStr "Sports")];
                JObj [("title", JStr "Rain"); ("summary", JStr "More rain");
                      ("category", JStr "Weather")]] in
  news_columns_of NEWS_CATEGORIES items =
  Ok [("International", []); ("National", []);
      ("Sports", [(JStr "Cup final", JStr "A draw")])].
Proof.
  intros items.
  exact (proj1 (news_columns_partition items
                  ltac:(repeat constructor))).
Defined.

(** X15 after a news call answered with the empty object. *)
Lemma news_card_needs_an_array_witness :
  news_card_body
    (data (fst (handleGenerateSection_resume json_parse news online_state
                  (FetchResponse true "{}") "2025-01-26T04:00:00.000Z" online_state))) =
  Throw filter_is_not_a_function.
Proof.
  exact (proj2 (proj2 (proj2 (news_card_needs_an_array json_parse (data online_state) eq_refl)))
               online_state (FetchResponse true "{}") "2025-01-26T04:00:00.000Z" online_state
               (JObj []) eq_refl eq_refl ltac:(discriminate)).
Defined.


(** ** The Proxy: answers, schemas, topics *)

Section AnswerProperties.

Variable JSON_parse : string -> Result JsVal.
Variable JSON_stringify : JsVal -> string.
Variable generateContent : GenerateContentParams -> Result GenerateContentResponse.
Variable nonce : string.

(** The five ways a run of the handler can go. *)
Lemma handler_cases (req : Request) :
  let run := handler JSON_parse JSON_stringify generateContent nonce req in
  let field := member (body req) in
  (method req <> "POST" /\
   run = mkRun [] (Ok (mkResponse 405 (error_body (JStr "Method not allowed"))))) \/
  (method req = "POST" /\ nullish (body req) = true /\
   run = mkRun [] (Throw (destructure_error (body req)))) \/
  (method req = "POST" /\ nullish (body req) = false /\
   is_str "suggestTopics" (field "type") = false /\
   is_str "generateSection" (field "type") = false /\
   run = mkRun [] (Ok (mkResponse 400 (error_body (JStr "Invalid request type"))))) \/
  (method req = "POST" /\
   exists params fallback,
     fallback = (if is_str "suggestTopics" (field "type") then "[]" else "{}") /\
     model params = "gemini-3-flash-preview" /\
     responseMimeType params = "application/json" /\
     run = mkRun [params] (Ok (call_and_reply JSON_parse generateContent params fallback))) \/
  (method req = "POST" /\ nullish (body req) = false /\
   ((is_str "suggestTopics" (field "type") = true /\
     suggestTopics_prompt (field "date") (field "language") = Throw cannot_convert) \/
    (is_str "generateSection" (field "type") = true /\
     generateSection_prompt JSON_stringify nonce (field "date") (field "difficulty")
                            (field "language") (field "section") (field "options") =
       Throw cannot_convert)) /\
   run = mkRun [] (Ok (mkResponse 500 (error_body (exn_message cannot_convert))))).
Proof.
  intros run field. subst run field. unfold handler.
  destruct (String.eqb_spec (method req) "POST") as [Hm | Hm]; simpl.
  2: { left. now split. }
  destruct (nullish (body req)) eqn:Hnull.
  { right. left. now repeat split. }
  destruct (is_str "suggestTopics" (member (body req) "type")) eqn:Hs.
  { destruct (suggestTopics_prompt _ _) as [prompt | error] eqn:Hprompt.
    - right. right. right. left. split; [assumption |]. eexists. eexists. now repeat split.
    - apply suggestTopics_prompt_throws in Hprompt as Herror. subst error.
      right. right. right. right. split; [assumption |]. split; [reflexivity |].
      split; [left; now split | reflexivity]. }
  destruct (is_str "generateSection" (member (body req) "type")) eqn:Hg.
  { destruct (generateSection_prompt _ _ _ _ _ _ _) as [prompt | error] eqn:Hprompt.
    - right. right. right. left. split; [assumption |]. eexists. eexists. now repeat split.
    - apply generateSection_prompt_throws in Hprompt as Herror. subst error.
      right. right. right. right. split; [assumption |]. split; [reflexivity |].
      split; [right; now split | reflexivity]. }
  right. right. left. now repeat split.
Qed.

Lemma call_and_reply_cases (params : GenerateContentParams) (fallback : string) :
  let r := call_and_reply JSON_parse generateContent params fallback in
  (status r = 200 /\
   exists response,
     generateContent params = Ok response /\
     JSON_parse (text_or (text response) fallback) = Ok (json r)) \/
  (status r = 500 /\
   exists v, json r = JObj [("error", v)] /\ truthy v = true /\
     ((exists e, generateContent params = Throw e) \/
      (exists response e, generateContent params = Ok response /\
                          JSON_parse (text_or (text response) fallback) = Throw e))).
Proof.
  intros r. subst r. unfold call_and_reply, try_catch, on_error, or_else, error_body.
  assert (Hmsg : forall e, truthy (if truthy (exn_message e) then exn_message e
                                   else JStr "Internal Server Error") = true).
  { intros e. now destruct (truthy (exn_message e)) eqn:Ht. }
  destruct (generateContent params) as [response | e] eqn:Hgen; simpl.
  - destruct (JSON_parse (text_or (text response) fallback)) as [parsed | e] eqn:Hp; simpl.
    + left. split; [reflexivity |]. now exists response.
    + right. split; [reflexivity |]. eexists. split; [reflexivity |]. split; [apply Hmsg |].
      right. now exists response, e.
  - right. split; [reflexivity |]. eexists. split; [reflexivity |]. split; [apply Hmsg |].
    left. now exists e.
Qed.

Lemma handler_success (req : Request) (params : GenerateContentParams)
      (response : GenerateContentResponse) (v : JsVal) :
  let run := handler JSON_parse JSON_stringify generateContent nonce req in
  let fallback := if is_str "suggestTopics" (member (body req) "type") then "[]" else "{}" in
  calls run = [params] ->
  generateContent params = Ok response ->
  JSON_parse (text_or (text response) fallback) = Ok v ->
  outcome run = Ok (mkResponse 200 v).
Proof.
  intros run fallback.
  destruct (handler_cases req) as [(Hm & Hrun) | [(Hm & Hnull & Hrun) |
    [(Hm & Hnull & _ & _ & Hrun) | [(Hm & params' & fb & Hfb & _ & _ & Hrun) |
    (Hm & Hnull & _ & Hrun)]]]];
    fold run in Hrun; rewrite Hrun; simpl; try discriminate.
  fold fallback in Hfb. subst fb.
  intros [= <-] Hgen Hp. unfold call_and_reply. rewrite Hgen. simpl. now rewrite Hp.
Qed.

(** X16.  How the handler answers.  Every run makes at most one provider
    call, always to the same model and asking for JSON.  It makes none when
    it answers 405 (the method is not POST) or 400, and none when it throws,
    which it does only for a POST whose body is [null] or [undefined].  It
    makes exactly one when it answers 200.  It answers 500 in two ways:
    after its one call, when the call or the parse of the returned text
    threw; or with no call at all, when a value of the body could not be
    converted to a string while the prompt of the request's mode was built,
    the body of the answer then naming that TypeError.  There is no other
    status. *)
Theorem handler_answers (req : Request) :
  let run := handler JSON_parse JSON_stringify generateContent nonce req in
  let field := member (body req) in
  let fallback := if is_str "suggestTopics" (field "type") then "[]" else "{}" in
  (length (calls run) <= 1)%nat /\
  Forall (fun p => model p = "gemini-3-flash-preview" /\
                   responseMimeType p = "application/json") (calls run) /\
  match outcome run with
  | Ok r =>
      (status r = 405 /\ method req <> "POST" /\ calls run = []) \/
      (status r = 400 /\ method req = "POST" /\ calls run = []) \/
      (status r = 200 /\ method req = "POST" /\
       exists params response,
         calls run = [params] /\ generateContent params = Ok response) \/
      (status r = 500 /\ method req = "POST" /\
       exists params,
         calls run = [params] /\
         ((exists e, generateContent params = Throw e) \/
          (exists response e,
             generateContent params = Ok response /\
             JSON_parse (text_or (text response) fallback) = Throw e))) \/
      (status r = 500 /\ method req = "POST" /\ calls run = [] /\
       json r = JObj [("error", JStr "Cannot convert object to primitive value")] /\
       (suggestTopics_prompt (field "date") (field "language") = Throw cannot_convert \/
        generateSection_prompt JSON_stringify nonce (field "date") (field "difficulty")
                               (field "language") (field "section") (field "options") =
          Throw cannot_convert))
  | Throw e =>
      method req = "POST" /\ nullish (body req) = true /\ calls run = [] /\
      e = destructure_error (body req)
  end.
Proof.
  intros run field fallback.
  destruct (handler_cases req) as [(Hm & Hrun) | [(Hm & Hnull & Hrun) |
    [(Hm & Hnull & _ & _ & Hrun) | [(Hm & params & fb & Hfb & Hmodel & Hmime & Hrun) |
    (Hm & Hnull & Hprompt & Hrun)]]]];
    fold run in Hrun; rewrite Hrun; simpl.
  - split; [lia |]. split; [constructor |]. left. now repeat split.
  - split; [lia |]. split; [constructor |]. now repeat split.
  - split; [lia |]. split; [constructor |]. right. left. now repeat split.
  - split; [lia |]. split; [repeat constructor; assumption |]. right. right.
    fold field fallback in Hfb. subst fb.
    destruct (call_and_reply_cases params fallback)
      as [(H200 & response & Hgen & _) | (H500 & _ & _ & _ & Hwhy)].
    + left. split; [assumption |]. split; [assumption |]. now exists params, response.
    + right. left. split; [assumption |]. split; [assumption |]. exists params.
      split; [reflexivity | exact Hwhy].
  - split; [lia |]. split; [constructor |]. right. right. right. right.
    split; [reflexivity |]. split; [assumption |]. split; [reflexivity |].
    split; [reflexivity |]. fold field in Hprompt.
    destruct Hprompt as [(_ & H) | (_ & H)]; [left | right]; exact H.
Qed.

(** X17.  A 200 is the parsed text, nothing more.  The handler answers 200
    exactly when its provider call resolved and the returned text (or, for a
    missing or empty text, the fallback of the mode) parsed as JSON; the
    body of the answer is then the parsed value as it is, whatever the
    section and its schema. *)
Theorem success_is_the_parsed_text (req : Request) (v : JsVal) :
  let run := handler JSON_parse JSON_stringify generateContent nonce req in
  let fallback := if is_str "suggestTopics" (member (body req) "type") then "[]" else "{}" in
  outcome run = Ok (mkResponse 200 v) <->
  exists params response,
    calls run = [params] /\
    generateContent params = Ok response /\
    JSON_parse (text_or (text response) fallback) = Ok v.
Proof.
  intros run fallback. split.
  - intros Hout.
    destruct (handler_cases req) as [(Hm & Hrun) | [(Hm & Hnull & Hrun) |
      [(Hm & Hnull & _ & _ & Hrun) | [(Hm & params & fb & Hfb & _ & _ & Hrun) |
      (Hm & Hnull & _ & Hrun)]]]];
      fold run in Hrun; rewrite Hrun in Hout |- *; simpl in Hout |- *; try discriminate.
    fold fallback in Hfb. subst fb. injection Hout as Hr. exists params.
    destruct (call_and_reply_cases params fallback) as [(_ & response & Hgen & Hp) | (H5 & _)].
    + exists response. rewrite Hr in Hp. simpl in Hp. now repeat split.
    + rewrite Hr in H5. discriminate H5.
  - intros (params & response & Hcalls & Hgen & Hp).
    exact (handler_success req params response v Hcalls Hgen Hp).
Qed.

(** X18.  Every failure answer names its error.  When the handler answers
    with a status other than 200, the body is an object with a single
    [error] property whose value is truthy.  So a client that reads the
    answer back from its JSON text raises an [Error] with that value,
    converted to a string, as message (or, should the value not convert,
    the TypeError of the conversion): for an answer of this Proxy the
    generic message of [generateSection] and [suggestTopics] is never
    used. *)
Theorem failure_answers_name_their_error (req : Request) (r : Response) :
  outcome (handler JSON_parse JSON_stringify generateContent nonce req) = Ok r ->
  status r <> 200 ->
  exists v : JsVal,
    json r = JObj [("error", v)] /\ truthy v = true /\
    (JSON_parse (JSON_stringify (json r)) = Ok (json r) ->
     let raised : Result JsVal :=
       match ToString v with
       | Ok message => Throw (mkExn "Error" (JStr message))
       | Throw e => Throw e
       end in
     generateSection_settle JSON_parse (delivered JSON_stringify r) = raised /\
     suggestTopics_settle JSON_parse (delivered JSON_stringify r) = raised).
Proof.
  intros Hout Hstatus.
  assert (Hbody : exists v, json r = JObj [("error", v)] /\ truthy v = true /\
                            (status r = 400 \/ status r = 405 \/ status r = 500)).
  { destruct (handler_cases req) as [(Hm & Hrun) | [(Hm & Hnull & Hrun) |
      [(Hm & Hnull & _ & _ & Hrun) | [(Hm & params & fb & _ & _ & _ & Hrun) |
      (Hm & Hnull & _ & Hrun)]]]];
      rewrite Hrun in Hout; simpl in Hout.
    - injection Hout as <-. eexists. now repeat split; auto.
    - discriminate.
    - injection Hout as <-. eexists. now repeat split; auto.
    - injection Hout as <-.
      destruct (call_and_reply_cases params fb) as [(H2 & _) | (H5 & v & Hj & Ht & _)].
      + contradiction.
      + exists v. auto.
    - injection Hout as <-. eexists. now repeat split; auto. }
  destruct Hbody as (v & Hj & Ht & Hcode).
  exists v. split; [assumption |]. split; [assumption |].
  intros Hlaw raised. subst raised.
  unfold delivered, generateSection_settle, suggestTopics_settle, response_json, new_Error.
  assert (Hok : (200 <=? status r) && (status r <=? 299) = false).
  { destruct Hcode as [-> | [-> | ->]]; reflexivity. }
  rewrite Hok, Hlaw. simpl. rewrite Hj. unfold get_prop, or_else. simpl.
  rewrite Ht. now destruct (ToString v).
Qed.

(** X19.  From the provider's text to the section's field.  When the
    provider call of a request resolves and its text parses to a value
    that [JSON.parse] reads back from its [JSON.stringify] text, the handler
    answers 200 with that value, the client's [generateSection] resolves to
    it, and the continuation of [handleGenerateSection] stores it as the
    section's field, with the current time as timestamp, and clears the
    section's flag. *)
Theorem parsed_text_reaches_the_field (req : Request) (params : GenerateContentParams)
        (response : GenerateContentResponse) (v : JsVal)
        (section : SectionName) (captured st : AppState) (now : string) :
  let run := handler JSON_parse JSON_stringify generateContent nonce req in
  let fallback := if is_str "suggestTopics" (member (body req) "type") then "[]" else "{}" in
  calls run = [params] ->
  generateContent params = Ok response ->
  JSON_parse (text_or (text response) fallback) = Ok v ->
  JSON_parse (JSON_stringify v) = Ok v ->
  exists answer : Response,
    outcome run = Ok answer /\ status answer = 200 /\
    (let arrived := delivered JSON_stringify answer in
     let st' := fst (handleGenerateSection_resume JSON_parse section captured arrived now st) in
     generateSection_settle JSON_parse arrived = Ok v /\
     member (data st') (section_key section) = v /\
     member (data st') "timestamp" = JStr now /\
     loadingSections st' !! section_key section = Some false).
Proof.
  intros run fallback Hcalls Hgen Hparse Hlaw.
  exists (mkResponse 200 v).
  split; [now apply (handler_success req params response v) |].
  split; [reflexivity |]. intros arrived st'.
  assert (Hsettle : generateSection_settle JSON_parse arrived = Ok v).
  { subst arrived. unfold delivered, generateSection_settle, response_json. simpl. exact Hlaw. }
  pose proof (resume_frame JSON_parse section captured arrived now st)
    as (Hclr & _ & Hok & _).
  fold st' in Hclr, Hok. specialize (Hok v Hsettle). clearbody st'.
  pose proof (merged_data (section_key section) now v (data st)
                (section_key_not_timestamp section)) as (Hf & Hts & _).
  rewrite Hok. now repeat split.
Qed.

End AnswerProperties.

(** X18 at a provider that rejects the call. *)
Lemma failure_answers_name_their_error_witness :
  exists r : Response,
    outcome (handler json_parse json_stringify failing_provider sample_nonce
               (mkRequest "POST" (JObj [("type", JStr "suggestTopics")]))) = Ok r /\
    suggestTopics_settle json_parse (delivered json_stringify r) =
      Throw (mkExn "Error" (JStr "API key not valid")).
Proof.
  eexists. split; [reflexivity |].
  destruct (failure_answers_name_their_error json_parse json_stringify failing_provider
              sample_nonce (mkRequest "POST" (JObj [("type", JStr "suggestTopics")]))
              _ eq_refl ltac:(discriminate)) as (v & Hj & _ & Hclient).
  injection Hj as <-.
  exact (proj2 (Hclient eq_refl)).
Defined.

(** X19 at a provider that returns a thought. *)
Lemma parsed_text_reaches_the_field_witness :
  let quote := JObj [("quote", JStr "Stay curious"); ("author", JStr "Anon")] in
  let provider := constant_provider (json_stringify quote) in
  let req := mkRequest "POST" (JObj [("type", JStr "generateSection");
                                     ("section", JStr "thought")]) in
  exists answer : Response,
    outcome (handler json_parse json_stringify provider sample_nonce req) = Ok answer /\
    member (data (fst (handleGenerateSection_resume json_parse thought online_state
                         (delivered json_stringify answer)
                         "2025-01-26T04:00:00.000Z" online_state)))
           "thought" = quote.
Proof.
  intros quote provider req.
  destruct (parsed_text_reaches_the_field json_parse json_stringify provider sample_nonce
              req _ (mkGenResponse (Some (json_stringify quote))) quote
              thought online_state online_state "2025-01-26T04:00:00.000Z"
              eq_refl eq_refl eq_refl eq_refl) as (answer & Hout & _ & Hrest).
  exists answer. split; [exact Hout |]. exact (proj1 (proj2 Hrest)).
Defined.


(** ** Sections, schemas and record types *)

Section SchemaProperties.


(** Membership in two literal lists. *)
Ltac finite_iff :=
  let f := fresh "f" in
  let H := fresh "H" in
  intros f; simpl; split; intros H;
  repeat (destruct H as [H | H]); try contradiction;
  try (inversion H; subst); simpl; auto 10.

(** X21.  The schemas agree with the record types.  For each section, the
    schema the Proxy selects describes an object (for news, an array of
    objects) whose properties are the fields of the section's record type
    and whose required properties are exactly the fields the type does not
    mark optional; the categories allowed for a news item are those of the
    type, which are the columns of the news card. *)
Theorem schemas_agree_with_types (s : SectionName) (options : JsVal) :
  exists (properties : list (string * Schema)) (required : list string),
    fst (section_dispatch (JStr (section_key s)) options) =
      Some (match s with
            | news => TArray (TObject properties required)
            | _ => TObject properties required
            end) /\
    (forall f : string, In f required <-> In (f, true) (record_type s)) /\
    (forall f : string,
        In f (List.map fst properties) <-> In f (List.map fst (record_type s))) /\
    (s = news ->
     lookup_prop_schema "category" properties = Some (TStringEnum NewsItem_category) /\
     NewsItem_category = NEWS_CATEGORIES).
Proof.
  destruct s; simpl; eexists; eexists; (split; [reflexivity |]);
    (split; [finite_iff | split; [finite_iff |]]);
    first [discriminate | intros _; split; reflexivity].
Qed.

(** X22.  The language of the topic suggestions.  In [suggestTopics] mode
    the handler calls the provider with an array-of-strings schema and a
    prompt that embeds the date, converted to a string (no prompt is built
    when the date cannot be converted).  The prompt asks for Hindi script
    when the request's language is exactly [Hindi]; for every other value,
    a missing one included, it is the prompt of an English request. *)
Theorem topics_prompt_language (date language : JsVal) :
  (exists pre post,
      suggestTopics_prompt date language =
        (let* date_text := ToString date in Ok (pre +:+ date_text +:+ post)) /\
      contains "Suggest exactly 5 interesting and diverse topics" pre /\
      contains "as a simple JSON array of 5 strings." post) /\
  (language = JStr "Hindi" ->
     forall prompt : string,
       suggestTopics_prompt date language = Ok prompt ->
       contains "Return the result in Hindi script (Devanagari) as a simple JSON array"
                prompt) /\
  (language <> JStr "Hindi" ->
     suggestTopics_prompt date language = suggestTopics_prompt date (JStr "English") /\
     forall prompt : string,
       suggestTopics_prompt date language = Ok prompt ->
       contains "Return the result in English as a simple JSON array" prompt).
Proof.
  split; [| split].
  - unfold suggestTopics_prompt. eexists. eexists. split; [reflexivity |].
    split; [apply includes_spec; reflexivity |].
    destruct (is_str "Hindi" language); apply includes_spec; reflexivity.
  - intros -> prompt. unfold suggestTopics_prompt. simpl.
    destruct (ToString date); simpl; [| discriminate]. intros [= <-].
    do 2 apply contains_append_r. apply includes_spec. reflexivity.
  - intros Hne. unfold suggestTopics_prompt.
    rewrite (is_str_false "Hindi" language Hne). simpl.
    split; [reflexivity |]. intros prompt.
    destruct (ToString date); simpl; [| discriminate]. intros [= <-].
    do 2 apply contains_append_r. apply includes_spec. reflexivity.
Qed.

End SchemaProperties.

(** X22 at a request that spells the language in lower case. *)
Lemma topics_prompt_language_witness :
  suggestTopics_prompt (JStr "2025-01-26") (JStr "hindi") =
    suggestTopics_prompt (JStr "2025-01-26") (JStr "English") /\
  exists prompt : string,
    suggestTopics_prompt (JStr "2025-01-26") (JStr "hindi") = Ok prompt /\
    contains "Return the result in English as a simple JSON array" prompt.
Proof.
  destruct (proj2 (proj2 (topics_prompt_language (JStr "2025-01-26") (JStr "hindi")))
              ltac:(discriminate)) as (Hsame & Henglish).
  split; [exact Hsame |]. eexists. split; [reflexivity |]. exact (Henglish _ eq_refl).
Defined.


(** ** Defaults and the offline controls *)

Section DefaultsAndControls.

Variable JSON_stringify : JsVal -> string.

(** X23.  The defaults of a special segment.  When the options of a
    [special_item] request name no type, no topic and no length (or a length
    other than exactly [Long]), and in particular when the request has no
    options at all, the instruction asks for a short Speech with no topic
    clause. *)
Theorem segment_defaults (options : JsVal) :
  truthy (opt_chain options "specialType") = false ->
  truthy (opt_chain options "customTopic") = false ->
  opt_chain options "contentLength" <> JStr "Long" ->
  section_dispatch (JStr "special_item") options =
    (Some SPECIAL_ITEM_SCHEMA,
     Ok ("Generate a special assembly segment of type " +:+ dquote +:+ "Speech" +:+ dquote +:+
         " . The content should be concise and short (about 100 words). If it's a quiz, include the answer.")).
Proof.
  intros Htype Htopic Hlength. unfold section_dispatch, or_else. simpl.
  rewrite Htype, Htopic, (is_str_false "Long" _ Hlength). reflexivity.
Qed.

(** X24.  The controls while offline.  Offline, the generate button of the
    segment configuration is disabled, but the regenerate control of a card
    whose section is not loading is not; pressing it issues no network
    call, raises the banner "No internet connection." and leaves the card as
    it was. *)
Theorem offline_controls (section : SectionName) (st : AppState) :
  isOnline st = false ->
  loadingSections st !! section_key section <> Some true ->
  let pressed := handleGenerateSection_start JSON_stringify section st in
  generate_button_disabled st = true /\
  regenerate_control (GlassCard (card_props section st)) = Some false /\
  snd (fst pressed) = [] /\ snd pressed = Returned /\
  error (fst (fst pressed)) = Some "No internet connection." /\
  GlassCard (card_props section (fst (fst pressed))) = GlassCard (card_props section st).
Proof.
  intros Hoff Hflag pressed. subst pressed.
  unfold generate_button_disabled, handleGenerateSection_start, card_props, GlassCard.
  rewrite Hoff. simpl. rewrite orb_true_r.
  destruct (loadingSections st !! section_key section) as [[|] |];
    [now destruct Hflag | |]; now repeat split.
Qed.

End DefaultsAndControls.

(** X23 at a request without options. *)
Lemma segment_defaults_witness :
  fst (section_dispatch (JStr "special_item") JUndefined) = Some SPECIAL_ITEM_SCHEMA /\
  exists task : string,
    snd (section_dispatch (JStr "special_item") JUndefined) = Ok task /\
    contains "concise and short (about 100 words)" task.
Proof.
  rewrite (segment_defaults JUndefined eq_refl eq_refl ltac:(discriminate)).
  split; [reflexivity |]. eexists. split; [reflexivity |]. apply includes_spec. reflexivity.
Defined.

(** X24 at the sample session gone offline, on the thought card. *)
Lemma offline_controls_witness :
  regenerate_control (GlassCard (card_props thought offline_state)) = Some false /\
  error (fst (fst (handleGenerateSection_start json_stringify thought offline_state))) =
    Some "No internet connection.".
Proof.
  pose proof (offline_controls json_stringify thought offline_state eq_refl
                ltac:(discriminate)) as (_ & Hcard & _ & _ & Hbanner & _).
  split; [exact Hcard | exact Hbanner].
Defined.
